(** * PhotoGallery-Mobile: authenticated API access layer and error classifier

    A shallow embedding of
      - [src/utils/errorHandling] (the login error classifier
        [parseLoginError]),
      - [src/services/api.ts] (the credential store [secureStorage], the
        request and response interceptors of [apiClient], and
        [handleApiError]),
    followed by the properties of the specification that concern them.

    JavaScript values are modelled by the inductive type [JsValue];
    asynchronous code is modelled in a state-and-exception monad over a
    [World] that holds the platform key-value stores, the scripted
    behaviour of the environment (platform faults, network replies) and the
    trace of observable effects. *)

From stdpp Require Import base strings gmap list pretty.
From Stdlib Require Import ZArith Ascii String Bool.

Set Warnings "-register-all".

Open Scope string_scope.
Open Scope Z_scope.
Open Scope list_scope.

(** ** JavaScript values *)

(** The values the classifier and the response bodies range over.  Numbers
    are restricted to integers, which is all an HTTP status needs.
    Objects are property lists in insertion order. *)
Inductive JsValue : Type :=
| JsUndefined
| JsNull
| JsBool (b : bool)
| JsNumber (n : Z)
| JsString (s : string)
| JsArray (elems : list JsValue)
| JsObject (fields : list (string * JsValue)).

(** [if (v)], [!v], [v || w]: JavaScript truthiness. *)
Definition truthy (v : JsValue) : bool :=
  match v with
  | JsUndefined | JsNull => false
  | JsBool b => b
  | JsNumber n => negb (n =? 0)
  | JsString s => negb (String.eqb s "")
  | JsArray _ | JsObject _ => true
  end.

(** [v == null], the test behind [?.]. *)
Definition nullish (v : JsValue) : bool :=
  match v with
  | JsUndefined | JsNull => true
  | _ => false
  end.

(** [v === n] for a number literal [n], as used by [switch] and [===]. *)
Definition is_number (v : JsValue) (n : Z) : bool :=
  match v with
  | JsNumber m => m =? n
  | _ => false
  end.

(** [v === s] for a string literal [s]. *)
Definition is_string (v : JsValue) (s : string) : bool :=
  match v with
  | JsString t => String.eqb t s
  | _ => false
  end.

(** First binding of a property in an object's property list. *)
Fixpoint assoc (fields : list (string * JsValue)) (prop : string) : option JsValue :=
  match fields with
  | [] => None
  | (k, v) :: rest => if String.eqb k prop then Some v else assoc rest prop
  end.

(** [String.prototype.includes]: [needle] occurs in [s]. *)
Fixpoint String_includes (s needle : string) : bool :=
  String.prefix needle s ||
  match s with
  | EmptyString => false
  | String _ s' => String_includes s' needle
  end.

(** The conversion of a template literal [`${v}`] and of [Array.join]. *)
Fixpoint ToString (v : JsValue) : string :=
  match v with
  | JsUndefined => "undefined"
  | JsNull => "null"
  | JsBool true => "true"
  | JsBool false => "false"
  | JsNumber n => pretty n
  | JsString s => s
  | JsArray elems =>
      String.concat ","
        (List.map (fun x => if nullish x then "" else ToString x) elems)
  | JsObject _ => "[object Object]"
  end.

(** [elems.join(sep)]: [null] and [undefined] elements print as empty. *)
Definition Array_join (elems : list JsValue) (sep : string) : string :=
  String.concat sep
    (List.map (fun x => if nullish x then "" else ToString x) elems).

(** ** Requests, responses and thrown values *)

(** An axios request descriptor with the hidden [_retry] marker the
    response interceptor adds. *)
Record RequestConfig : Type := mkRequestConfig {
  method : string;
  url : string;
  headers : option (gmap string string);
  data : JsValue;
  _retry : bool
}.

Record Response : Type := mkResponse {
  status : Z;
  body : JsValue
}.

(** The fields of an [AxiosError] that the code reads.  [request] tells
    whether the request left the client. *)
Record AxiosError : Type := mkAxiosError {
  config : option RequestConfig;
  response : option Response;
  request : bool;
  message : string
}.

(** Everything the modelled code can throw or reject with. *)
Inductive JsError : Type :=
| ErrAxios (e : AxiosError)
| ErrPlatform (reason : string)
| SyntaxError
| TypeError (reason : string).

(** Completion of synchronous code: a value or a thrown error. *)
Inductive Completion (A : Type) : Type :=
| Normal (a : A)
| Throw (e : JsError).
Arguments Normal {A} a.
Arguments Throw {A} e.

#[export] Instance Completion_ret : MRet Completion := fun A a => Normal a.
#[export] Instance Completion_bind : MBind Completion := fun A B f m =>
  match m with
  | Normal a => f a
  | Throw e => Throw e
  end.

(** [v.prop] for a property that is not built in: a [TypeError] on [null]
    and [undefined], [undefined] on primitives, arrays and objects without
    the property. *)
Definition js_get (v : JsValue) (prop : string) : Completion JsValue :=
  match v with
  | JsUndefined | JsNull => Throw (TypeError "Cannot read properties")
  | JsObject fields => Normal (default JsUndefined (assoc fields prop))
  | _ => Normal JsUndefined
  end.

(** [v?.prop]. *)
Definition js_get_opt (v : JsValue) (prop : string) : JsValue :=
  match v with
  | JsObject fields => default JsUndefined (assoc fields prop)
  | _ => JsUndefined
  end.

(** [v.includes(needle)] for a string [needle]: defined on strings and
    arrays; any other receiver has no callable [includes]. *)
Definition js_includes (v : JsValue) (needle : string) : Completion bool :=
  match v with
  | JsString s => Normal (String_includes s needle)
  | JsArray elems => Normal (existsb (fun x => is_string x needle) elems)
  | JsUndefined | JsNull => Throw (TypeError "Cannot read properties")
  | _ => Throw (TypeError "includes is not a function")
  end.

(** [v?.includes(needle)] used as a condition: [undefined] is falsy. *)
Definition js_includes_opt (v : JsValue) (needle : string) : Completion bool :=
  if nullish v then Normal false else js_includes v needle.

(** ** The error classifier ([src/utils/errorHandling]) *)

Module ErrorHandling.

Inductive ErrorType : Type :=
| network | validation | authentication | server | unknown.

#[export] Instance ErrorType_eq_dec : EqDecision ErrorType.
Proof. solve_decision. Defined.

Record LoginError : Type := mkLoginError {
  type : ErrorType;
  message : string;
  originalError : JsValue;
  retryable : bool
}.

(** [parseLoginError(error: any): LoginError].  The function has no
    [try]/[catch]: a [TypeError] raised by a property access or by a call
    of a missing [includes] leaves it. *)
Definition parseLoginError (error : JsValue) : Completion LoginError :=
  status ← js_get error "status";
  isNetwork ←
    (if truthy status then Normal false
     else msg ← js_get error "message"; js_includes_opt msg "网络");
  if isNetwork : bool then
    Normal (mkLoginError network "网络连接失败，请检查网络设置后重试" error true)
  else
    status ← js_get error "status";
    if is_number status 400 then
      Normal (mkLoginError validation "用户名或密码格式不正确，请检查输入" error false)
    else if is_number status 401 then
      Normal (mkLoginError authentication "用户名或密码错误，请重新输入" error false)
    else if is_number status 403 then
      Normal (mkLoginError authentication "账户被禁用或权限不足，请联系管理员" error false)
    else if is_number status 429 then
      Normal (mkLoginError server "登录尝试过于频繁，请稍后再试" error true)
    else if is_number status 500 || is_number status 502 || is_number status 503 then
      Normal (mkLoginError server "服务器临时不可用，请稍后重试" error true)
    else
      msg ← js_get error "message";
      let errorMessage := if truthy msg then msg else JsString "" in
      isUser ← js_includes errorMessage "用户名";
      if isUser : bool then
        Normal (mkLoginError validation "用户名不存在，请检查用户名是否正确" error false)
      else
        isPwd ← js_includes errorMessage "密码";
        if isPwd : bool then
          Normal (mkLoginError authentication "密码错误，请重新输入正确的密码" error false)
        else
          isTimeoutCn ← js_includes errorMessage "超时";
          isTimeout ←
            (if isTimeoutCn : bool then Normal true
             else js_includes errorMessage "timeout");
          if isTimeout : bool then
            Normal (mkLoginError network "连接超时，请检查网络后重试" error true)
          else
            Normal (mkLoginError unknown "登录失败，请稍后重试" error true).

End ErrorHandling.

(** ** The world the asynchronous code runs in *)

(** [Platform.OS === 'web'] selects [localStorage], anything else
    [expo-secure-store]. *)
Inductive PlatformOS : Type := web | native.

(** [AuthTokens] of [src/types]: the pair kept under [TOKEN_KEY]. *)
Record AuthTokens : Type := mkAuthTokens {
  access : string;
  refresh : string
}.

(** What the scripted backend answers to a request sent through
    [apiClient]: the adapter resolves with a response, or rejects with an
    [AxiosError] that carries a response (a status outside 2xx) or none
    (connection refused, DNS failure, timeout). *)
Inductive NetOutcome : Type :=
| NetResolved (r : Response)
| NetRejected (r : option Response) (msg : string).

(** What [POST /token/refresh/] answers: its body [{access}] at its wire
    type, or the error [axios.post] rejects with. *)
Inductive RefreshOutcome : Type :=
| RefreshResolved (newAccess : string)
| RefreshRejected (e : AxiosError).

(** Observable effects, in the order they happen. *)
Inductive Event : Type :=
| EvConsoleLog (label : string)
| EvStored (key value : string)
| EvDeleted (key : string)
| EvRefreshCall (refreshToken : string)
| EvDispatch (cfg : RequestConfig).

(** [faults] scripts the platform persistence: each call of a platform
    storage function consumes one entry, [true] meaning that the call
    throws; an exhausted script means no fault.  [api_script] and
    [refresh_script] script the backend in the same way. *)
Record World : Type := mkWorld {
  Platform_OS : PlatformOS;
  localStorage : gmap string string;
  SecureStore : gmap string string;
  faults : list bool;
  api_script : list NetOutcome;
  refresh_script : list RefreshOutcome;
  trace : list Event
}.

(** The key-value store of a platform API, and the one [secureStorage]
    talks to in this world. *)
Definition store_of (os : PlatformOS) (w : World) : gmap string string :=
  match os with
  | web => localStorage w
  | native => SecureStore w
  end.

Definition set_store_of (os : PlatformOS) (m : gmap string string) (w : World) : World :=
  mkWorld (Platform_OS w)
    (match os with web => m | native => localStorage w end)
    (match os with web => SecureStore w | native => m end)
    (faults w) (api_script w) (refresh_script w) (trace w).

Definition backing_store (w : World) : gmap string string :=
  store_of (Platform_OS w) w.

Definition set_faults (fs : list bool) (w : World) : World :=
  mkWorld (Platform_OS w) (localStorage w) (SecureStore w) fs (api_script w)
    (refresh_script w) (trace w).

Definition set_api_script (s : list NetOutcome) (w : World) : World :=
  mkWorld (Platform_OS w) (localStorage w) (SecureStore w) (faults w) s
    (refresh_script w) (trace w).

Definition set_refresh_script (s : list RefreshOutcome) (w : World) : World :=
  mkWorld (Platform_OS w) (localStorage w) (SecureStore w) (faults w)
    (api_script w) s (trace w).

Definition log_event (ev : Event) (w : World) : World :=
  mkWorld (Platform_OS w) (localStorage w) (SecureStore w) (faults w)
    (api_script w) (refresh_script w) (trace w ++ [ev]).

(** The world once a platform call has consumed its fault entry. *)
Definition after_fault (w : World) : World :=
  set_faults (tail (faults w)) w.

(** The world with the current platform's store replaced. *)
Definition write_backing (m : gmap string string) (w : World) : World :=
  set_store_of (Platform_OS w) m w.

(** The refresh tokens sent to the refresh endpoint, and the requests sent
    through [apiClient], in order. *)
Definition refresh_calls (tr : list Event) : list string :=
  omap (fun ev => match ev with EvRefreshCall t => Some t | _ => None end) tr.

Definition dispatched (tr : list Event) : list RequestConfig :=
  omap (fun ev => match ev with EvDispatch cfg => Some cfg | _ => None end) tr.

(** ** Asynchronous computations *)

(** An [async] function run to completion from a world: its promise
    resolves or rejects, in a new world.  [None] is reserved for the one
    recursive function, [apiClient], running out of fuel. *)
Definition Async (A : Type) : Type := World -> option (Completion A * World).

#[export] Instance Async_ret : MRet Async := fun A a w => Some (Normal a, w).
#[export] Instance Async_bind : MBind Async := fun A B f m w =>
  match m w with
  | Some (Normal a, w') => f a w'
  | Some (Throw e, w') => Some (Throw e, w')
  | None => None
  end.

(** [throw e] / [Promise.reject(e)]. *)
Definition reject {A : Type} (e : JsError) : Async A :=
  fun w => Some (Throw e, w).

(** [try { m } catch (e) { handler e }]. *)
Definition try_catch {A : Type} (m : Async A) (handler : JsError -> Async A) : Async A :=
  fun w =>
    match m w with
    | Some (Throw e, w') => handler e w'
    | r => r
    end.

Definition emit (ev : Event) : Async unit :=
  fun w => Some (Normal tt, log_event ev w).

Definition console_log (label : string) : Async unit :=
  emit (EvConsoleLog label).

(** The next entry of the platform fault script. *)
Definition next_fault : Async bool :=
  fun w => Some (Normal (hd false (faults w)), after_fault w).

(** [Platform.OS === 'web']. *)
Definition Platform_OS_is_web : Async bool :=
  fun w =>
    Some (Normal (match Platform_OS w with web => true | native => false end), w).

(** Reading a key of a platform store: [null] when the key is absent. *)
Definition platform_getItem (os : PlatformOS) (key : string) : Async (option string) :=
  fault ← next_fault;
  if fault : bool then reject (ErrPlatform "getItem")
  else fun w => Some (Normal (store_of os w !! key), w).

(** Writing a key: a rejected write leaves the store as it was. *)
Definition platform_setItem (os : PlatformOS) (key value : string) : Async unit :=
  fault ← next_fault;
  if fault : bool then reject (ErrPlatform "setItem")
  else fun w =>
    Some (Normal tt,
          log_event (EvStored key value)
            (set_store_of os (<[key := value]> (store_of os w)) w)).

(** Removing a key. *)
Definition platform_deleteItem (os : PlatformOS) (key : string) : Async unit :=
  fault ← next_fault;
  if fault : bool then reject (ErrPlatform "deleteItem")
  else fun w =>
    Some (Normal tt,
          log_event (EvDeleted key)
            (set_store_of os (delete key (store_of os w)) w)).

Definition localStorage_getItem := platform_getItem web.
Definition localStorage_setItem := platform_setItem web.
Definition localStorage_removeItem := platform_deleteItem web.
Definition SecureStore_getItemAsync := platform_getItem native.
Definition SecureStore_setItemAsync := platform_setItem native.
Definition SecureStore_deleteItemAsync := platform_deleteItem native.

(** ** JSON

    [JSON.stringify] and [JSON.parse] are used on token pairs only.  They
    are taken through their interface: parsing may fail (a [SyntaxError],
    or a value that is not a token pair), parsing what [JSON.stringify]
    printed gives the pair back, and the text of an object is never the
    empty string.  [TokenJSON] below implements the interface. *)
Class JSON : Type := mkJSON {
  JSON_stringify : AuthTokens -> string;
  JSON_parse : string -> option AuthTokens;
  JSON_parse_stringify : forall t, JSON_parse (JSON_stringify t) = Some t;
  JSON_stringify_nonempty : forall t, JSON_stringify t <> ""
}.

Definition dquote : ascii := "034"%char.
Definition backslash : ascii := "092"%char.

(** The body of a JSON string literal: the quote and the backslash are
    escaped. *)
Fixpoint json_escape (s : string) : string :=
  match s with
  | EmptyString => EmptyString
  | String c rest =>
      if Ascii.eqb c dquote || Ascii.eqb c backslash
      then String backslash (String c (json_escape rest))
      else String c (json_escape rest)
  end.

Definition json_quote (s : string) : string :=
  String dquote (json_escape s +:+ String dquote EmptyString).

(** Reads the body of a string literal up to its closing quote; returns
    the string and the text after the quote. *)
Fixpoint json_read_body (s : string) : option (string * string) :=
  match s with
  | EmptyString => None
  | String c rest =>
      if Ascii.eqb c dquote then Some (EmptyString, rest)
      else if Ascii.eqb c backslash then
        match rest with
        | EmptyString => None
        | String d rest' =>
            if Ascii.eqb d dquote || Ascii.eqb d backslash
            then '(body, after) ← json_read_body rest'; Some (String d body, after)
            else None
        end
      else '(body, after) ← json_read_body rest; Some (String c body, after)
  end.

Definition json_read_string (s : string) : option (string * string) :=
  match s with
  | String c rest => if Ascii.eqb c dquote then json_read_body rest else None
  | EmptyString => None
  end.

Definition json_expect (c : ascii) (s : string) : option string :=
  match s with
  | String d rest => if Ascii.eqb c d then Some rest else None
  | EmptyString => None
  end.

Definition tokens_stringify (t : AuthTokens) : string :=
  String "{" (json_quote "access" +:+ String ":" (json_quote (access t) +:+
  String "," (json_quote "refresh" +:+ String ":" (json_quote (refresh t) +:+
  String "}" EmptyString)))).

Definition tokens_parse (s : string) : option AuthTokens :=
  s ← json_expect "{" s;
  '(k1, s) ← json_read_string s;
  s ← json_expect ":" s;
  '(a, s) ← json_read_string s;
  s ← json_expect "," s;
  '(k2, s) ← json_read_string s;
  s ← json_expect ":" s;
  '(r, s) ← json_read_string s;
  s ← json_expect "}" s;
  if String.eqb k1 "access" && String.eqb k2 "refresh" && String.eqb s ""
  then Some (mkAuthTokens a r)
  else None.

Lemma append_cons c s t : String c s +:+ t = String c (s +:+ t).
Proof. reflexivity. Qed.

Lemma json_read_body_escape s rest :
  json_read_body (json_escape s +:+ String dquote rest) = Some (s, rest).
Proof.
  induction s as [|c s IH]; [reflexivity|].
  cbn [json_escape].
  destruct (Ascii.eqb c dquote) eqn:Hq.
  - cbn [orb]. rewrite !append_cons. cbn [json_read_body].
    replace (Ascii.eqb backslash dquote) with false by reflexivity.
    rewrite Ascii.eqb_refl, Hq. cbn [orb]. rewrite IH. reflexivity.
  - destruct (Ascii.eqb c backslash) eqn:Hb; cbn [orb].
    + rewrite !append_cons. cbn [json_read_body].
      replace (Ascii.eqb backslash dquote) with false by reflexivity.
      rewrite Ascii.eqb_refl, Hq, Hb. cbn [orb]. rewrite IH. reflexivity.
    + rewrite append_cons. cbn [json_read_body]. rewrite Hq, Hb, IH. reflexivity.
Qed.

Lemma json_read_string_quote s rest :
  json_read_string (json_quote s +:+ rest) = Some (s, rest).
Proof.
  unfold json_quote. rewrite append_cons. cbn [json_read_string].
  rewrite Ascii.eqb_refl.
  rewrite <- (json_read_body_escape s rest). f_equal.
  induction (json_escape s) as [|c e IH]; [reflexivity|].
  rewrite !append_cons. f_equal. exact IH.
Qed.

Ltac read_field :=
  rewrite json_read_string_quote;
  cbn [mbind option_bind json_expect];
  rewrite Ascii.eqb_refl;
  cbn [mbind option_bind].

Lemma tokens_parse_stringify t : tokens_parse (tokens_stringify t) = Some t.
Proof.
  destruct t as [a r]. unfold tokens_parse, tokens_stringify.
  cbn [access refresh json_expect]. rewrite Ascii.eqb_refl.
  cbn [mbind option_bind].
  do 3 read_field.
  rewrite json_read_string_quote.
  cbn [mbind option_bind json_expect]. rewrite Ascii.eqb_refl.
  reflexivity.
Qed.

Lemma tokens_stringify_nonempty t : tokens_stringify t <> "".
Proof. discriminate. Qed.

(** The codec of token pairs as an implementation of [JSON]. *)
Definition TokenJSON : JSON :=
  mkJSON tokens_stringify tokens_parse tokens_parse_stringify
    tokens_stringify_nonempty.

(** ** [src/services/api.ts] *)

Module Api.

Definition BASE_URL : string := "http://127.0.0.1:8000".
Definition API_PREFIX : string := "/api".
Definition TOKEN_KEY : string := "auth_tokens".

(** *** [secureStorage]

    Each function wraps the platform call in [try]/[catch]; the handler
    logs and, for [getItem], returns [null]. *)

Definition secureStorage_getItem (key : string) : Async (option string) :=
  try_catch
    (isWeb ← Platform_OS_is_web;
     if isWeb : bool then localStorage_getItem key
     else SecureStore_getItemAsync key)
    (fun error => console_log "获取存储项失败:";; mret None).

Definition secureStorage_setItem (key value : string) : Async unit :=
  try_catch
    (isWeb ← Platform_OS_is_web;
     if isWeb : bool then localStorage_setItem key value
     else SecureStore_setItemAsync key value)
    (fun error => console_log "设置存储项失败:").

Definition secureStorage_deleteItem (key : string) : Async unit :=
  try_catch
    (isWeb ← Platform_OS_is_web;
     if isWeb : bool then localStorage_removeItem key
     else SecureStore_deleteItemAsync key)
    (fun error => console_log "删除存储项失败:").

(** *** The interceptors of [apiClient] *)

(** [if (tokens)] on the [string | null] that [getItem] returns. *)
Definition truthy_item (tokens : option string) : bool :=
  match tokens with
  | Some raw => negb (String.eqb raw "")
  | None => false
  end.

(** [config.headers = config.headers || {};
     config.headers.Authorization = `Bearer ${access}`]. *)
Definition set_Authorization (config : RequestConfig) (accessToken : string) : RequestConfig :=
  mkRequestConfig (method config) (url config)
    (Some (<["Authorization" := "Bearer " +:+ accessToken]> (default ∅ (headers config))))
    (data config) (_retry config).

(** [(originalRequest as any)._retry = true]. *)
Definition set_retry (config : RequestConfig) : RequestConfig :=
  mkRequestConfig (method config) (url config) (headers config) (data config) true.

(** [error.config] and [originalRequest] are one object: a write to the
    latter shows in the former. *)
Definition set_config (error : AxiosError) (cfg : RequestConfig) : AxiosError :=
  mkAxiosError (Some cfg) (response error) (request error) (message error).

(** [error.response?.status === 401]. *)
Definition status_is (error : AxiosError) (code : Z) : bool :=
  match response error with
  | Some r => status r =? code
  | None => false
  end.

(** The next scripted outcome of a request sent through [apiClient]; with
    the script exhausted the backend is unreachable. *)
Definition unreachable : NetOutcome := NetRejected None "Network Error".

Definition next_reply : Async NetOutcome :=
  fun w =>
    Some (Normal (hd unreachable (api_script w)),
          set_api_script (tail (api_script w)) w).

(** The next scripted outcome of the refresh endpoint. *)
Definition refresh_unreachable : RefreshOutcome :=
  RefreshRejected (mkAxiosError None None true "Network Error").

Definition next_refresh_reply : Async RefreshOutcome :=
  fun w =>
    Some (Normal (hd refresh_unreachable (refresh_script w)),
          set_refresh_script (tail (refresh_script w)) w).

(** The network adapter behind [apiClient]: sends the request; a rejection
    is an [AxiosError] on the request sent. *)
Definition dispatch (config : RequestConfig) : Async Response :=
  emit (EvDispatch config);;
  outcome ← next_reply;
  match outcome with
  | NetResolved r => mret r
  | NetRejected r msg => reject (ErrAxios (mkAxiosError (Some config) r true msg))
  end.

(** [axios.post(`${BASE_URL}${API_PREFIX}/token/refresh/`, {refresh})] on
    the global axios, which has no interceptors; resolves to
    [refreshResponse.data.access]. *)
Definition axios_post_refresh (refreshToken : string) : Async string :=
  emit (EvRefreshCall refreshToken);;
  outcome ← next_refresh_reply;
  match outcome with
  | RefreshResolved newAccess => mret newAccess
  | RefreshRejected e => reject (ErrAxios e)
  end.

Section Interceptors.
Context `{JSON}.

(** [JSON.parse(tokens)] typed as [AuthTokens]; whatever the parse or the
    reads of its fields throw is rendered as [SyntaxError]. *)
Definition parse_tokens (raw : string) : Async AuthTokens :=
  match JSON_parse raw with
  | Some parsedTokens => mret parsedTokens
  | None => reject SyntaxError
  end.

(** [apiClient.interceptors.request.use(async (config) => ...)]. *)
Definition requestInterceptor (config : RequestConfig) : Async RequestConfig :=
  try_catch
    (tokens ← secureStorage_getItem TOKEN_KEY;
     if truthy_item tokens then
       parsedTokens ← parse_tokens (default "" tokens);
       mret (set_Authorization config (access parsedTokens))
     else mret config)
    (fun error => console_log "获取token失败:";; mret config).

(** The rejection handler of [apiClient.interceptors.response.use].

    [apiClient] is the client the request is sent again through.  The
    [try] block either reaches [return apiClient(originalRequest)], whose
    promise is returned without [await] so that its rejection is not
    caught, or falls out of the [if (tokens)]; the [catch] covers the load,
    the parse, the refresh call and the save. *)
Definition responseInterceptor
    (apiClient : RequestConfig -> Async Response) (error : AxiosError) : Async Response :=
  match config error with
  | Some originalRequest =>
      if status_is error 401 && negb (_retry originalRequest) then
        let originalRequest := set_retry originalRequest in
        let error := set_config error originalRequest in
        again ←
          try_catch
            (tokens ← secureStorage_getItem TOKEN_KEY;
             if truthy_item tokens then
               parsedTokens ← parse_tokens (default "" tokens);
               newAccess ← axios_post_refresh (refresh parsedTokens);
               let newTokens := mkAuthTokens newAccess (refresh parsedTokens) in
               secureStorage_setItem TOKEN_KEY (JSON_stringify newTokens);;
               mret (Some (set_Authorization originalRequest (access newTokens)))
             else mret None)
            (fun refreshError =>
               secureStorage_deleteItem TOKEN_KEY;;
               reject refreshError);
        match again with
        | Some originalRequest => apiClient originalRequest
        | None => reject (ErrAxios error)
        end
      else reject (ErrAxios error)
  | None => reject (ErrAxios error)
  end.

(** [apiClient(config)]: the request interceptor, the adapter, then the
    response interceptors ([(response) => response] on success).  The
    recursion through the response interceptor is bounded by fuel;
    [apiClient_terminates] shows that two units always suffice. *)
Fixpoint apiClient (fuel : nat) (config : RequestConfig) : Async Response :=
  match fuel with
  | O => fun _ => None
  | S fuel' =>
      config ← requestInterceptor config;
      try_catch (dispatch config)
        (fun e =>
           match e with
           | ErrAxios error => responseInterceptor (apiClient fuel') error
           | _ => reject e
           end)
  end.

End Interceptors.

(** *** [handleApiError]

    Turns an [AxiosError] into the [ApiError] object [{message, status,
    code}] the API functions throw, in the revision that reads the error
    shapes of Django REST framework.  Its [console.log] is left out. *)
Definition handleApiError (error : AxiosError) : JsValue :=
  match response error with
  | Some resp =>
      let responseData := body resp in
      let message :=
        if truthy (js_get_opt responseData "detail") then
          js_get_opt responseData "detail"
        else if truthy (js_get_opt responseData "non_field_errors") then
          match js_get_opt responseData "non_field_errors" with
          | JsArray elems => JsString (Array_join elems ", ")
          | other => other
          end
        else if truthy (js_get_opt responseData "username") then
          JsString ("用户名: " +:+
            match js_get_opt responseData "username" with
            | JsArray elems => Array_join elems ", "
            | other => ToString other
            end)
        else if truthy (js_get_opt responseData "password") then
          JsString ("密码: " +:+
            match js_get_opt responseData "password" with
            | JsArray elems => Array_join elems ", "
            | other => ToString other
            end)
        else if truthy (js_get_opt responseData "message") then
          js_get_opt responseData "message"
        else
          match responseData with
          | JsString text => JsString text
          | _ => JsString "请求失败"
          end
      in
      JsObject [("message", message);
                ("status", JsNumber (status resp));
                ("code", js_get_opt responseData "code")]
  | None =>
      if request error then
        JsObject [("message", JsString "网络连接失败，请检查网络设置");
                  ("code", JsString "NETWORK_ERROR")]
      else
        JsObject [("message",
                   JsString (if String.eqb (message error) "" then "未知错误"
                             else message error));
                  ("code", JsString "UNKNOWN_ERROR")]
  end.

End Api.

(** ** The rest of [src/utils/errorHandling] *)

Module ErrorHandlingRest.
Import ErrorHandling.

Inductive MessageType : Type := error | warning | info.

(** [getErrorMessageType(errorType)]. *)
Definition getErrorMessageType (errorType : ErrorType) : MessageType :=
  match errorType with
  | network => warning
  | validation => info
  | authentication | server | unknown => error
  end.

(** [getRetryButtonText(errorType)]. *)
Definition getRetryButtonText (errorType : ErrorType) : string :=
  match errorType with
  | network => "重新连接"
  | server => "重试"
  | authentication => "重新输入"
  | _ => "重试"
  end.

(** The text of an input field: a JavaScript string as its sequence of
    UTF-16 code units, so that [length] and [trim] are those of the
    language. *)
Definition JsText : Type := list N.

(** The code units [String.prototype.trim] strips: the white space and
    line terminator characters of ECMAScript. *)
Definition isWhiteSpace (c : N) : bool :=
  ((9 <=? c) && (c <=? 13) || (c =? 32) || (c =? 160) || (c =? 5760)
   || (8192 <=? c) && (c <=? 8202) || (c =? 8232) || (c =? 8233)
   || (c =? 8239) || (c =? 8287) || (c =? 12288) || (c =? 65279))%N.

Fixpoint trimStart (s : JsText) : JsText :=
  match s with
  | c :: rest => if isWhiteSpace c then trimStart rest else s
  | [] => []
  end.

Definition trimEnd (s : JsText) : JsText := rev (trimStart (rev s)).

Definition trim (s : JsText) : JsText := trimEnd (trimStart s).

Record ValidationResult : Type := mkValidationResult {
  isValid : bool;
  errors : list string
}.

(** [validateLoginInput(username, password)]: the user name is measured
    after trimming, the password is tested for emptiness after trimming
    and measured as typed. *)
Definition validateLoginInput (username password : JsText) : ValidationResult :=
  let errors : list string := [] in
  let errors :=
    if (List.length (trim username) =? 0)%nat then errors ++ ["请输入用户名"]
    else if (List.length (trim username) <? 3)%nat then errors ++ ["用户名至少需要3个字符"]
    else if (30 <? List.length (trim username))%nat then errors ++ ["用户名不能超过30个字符"]
    else errors in
  let errors :=
    if (List.length (trim password) =? 0)%nat then errors ++ ["请输入密码"]
    else if (List.length password <? 6)%nat then errors ++ ["密码至少需要6个字符"]
    else if (128 <? List.length password)%nat then errors ++ ["密码不能超过128个字符"]
    else errors in
  mkValidationResult (List.length errors =? 0)%nat errors.

Definition newline : string := String "010"%char EmptyString.

(** [formatValidationErrors(errors)]: nothing for no error, the error for
    one, a numbered list otherwise. *)
Definition formatValidationErrors (errors : list string) : string :=
  match errors with
  | [] => ""
  | [e] => e
  | _ =>
      String.concat newline
        (imap (fun index e => pretty (index + 1)%nat +:+ ". " +:+ e) errors)
  end.

End ErrorHandlingRest.

(** ** [src/screens/LoginScreen.tsx]: what [handleLogin] does with a
    failed validation *)

Module LoginScreen.

Inductive InputRef : Type := usernameInputRef | passwordInputRef.

(** The input [handleLogin] focuses after a failed validation: the user
    name when some error mentions it, else the password when some error
    mentions it. *)
Definition focus_on_errors (errors : list string) : option InputRef :=
  if existsb (fun err => String_includes err "用户名") errors then
    Some usernameInputRef
  else if existsb (fun err => String_includes err "密码") errors then
    Some passwordInputRef
  else None.



End LoginScreen.

(** ** The API functions of [src/services/api.ts] *)

Module ApiCalls.
Import Api.

(** How the promise of an API function settles: with a value, or with the
    [ApiError] object thrown. *)
Inductive Settled (A : Type) : Type :=
| Fulfilled (value : A)
| Rejected (reason : JsValue).
Arguments Fulfilled {A} value.
Arguments Rejected {A} reason.

Definition Promise (A : Type) : Type := World -> option (Settled A * World).

(** [handleApiResponse(response)]: [{data: response.data, status:
    response.status}]. *)
Definition handleApiResponse (response : Response) : Response :=
  mkResponse (status response) (body response).

(** [error as AxiosError] on whatever was caught: an error that is not an
    [AxiosError] has a message and neither [response] nor [request].  The
    text of a [SyntaxError] is the engine's. *)
Definition as_AxiosError (error : JsError) : AxiosError :=
  match error with
  | ErrAxios e => e
  | ErrPlatform reason => mkAxiosError None None false reason
  | SyntaxError => mkAxiosError None None false "Unexpected token in JSON"
  | TypeError reason => mkAxiosError None None false reason
  end.

(** The headers [axios.create] configures for every request. *)
Definition default_headers : gmap string string :=
  {["Content-Type" := "application/json"]}.

(** The descriptors of [apiClient.get(url)] and [apiClient.post(url, data)]. *)
Definition get_request (url : string) : RequestConfig :=
  mkRequestConfig "get" url (Some default_headers) JsUndefined false.

Definition post_request (url : string) (data : JsValue) : RequestConfig :=
  mkRequestConfig "post" url (Some default_headers) data false.

(** [JSON.stringify] on the data of a response, through its interface:
    the text, or nothing where [JSON.stringify] returns [undefined]. *)
Class JSONData : Type := mkJSONData {
  JSON_stringify_data : JsValue -> option string
}.

(** [secureStorage.setItem(key, JSON.stringify(data))].  Where
    [JSON.stringify] returned [undefined], [localStorage.setItem] stores
    the text "undefined", and [SecureStore.setItemAsync] rejects the
    value, which is not a string, before it reaches the platform;
    [setItem] logs that rejection as it logs any other. *)
Definition secureStorage_setItem_data (key : string) (value : option string) : Async unit :=
  match value with
  | Some text => secureStorage_setItem key text
  | None =>
      try_catch
        (isWeb ← Platform_OS_is_web;
         if isWeb : bool then localStorage_setItem key "undefined"
         else reject (ErrPlatform "Invalid value provided to SecureStore"))
        (fun error => console_log "设置存储项失败:")
  end.

(** The world once the adapter has sent a request and taken its scripted
    outcome. *)
Definition after_dispatch (sent : RequestConfig) (w : World) : World :=
  set_api_script (tail (api_script w)) (log_event (EvDispatch sent) w).

Section ApiFunctions.
Context `{JSON} `{JSONData}.

(** The body shared by the API functions:
    [try { ...; return handleApiResponse(response) }
     catch (error) { throw handleApiError(error as AxiosError) }]. *)
Definition api_call (attempt : Async Response) : Promise Response :=
  fun w =>
    match attempt w with
    | Some (Normal response, w') => Some (Fulfilled (handleApiResponse response), w')
    | Some (Throw error, w') => Some (Rejected (handleApiError (as_AxiosError error)), w')
    | None => None
    end.

(** The client as the API functions call it; two units of fuel are all
    [apiClient] ever uses. *)
Definition apiClient_get (url : string) : Async Response :=
  apiClient 2 (get_request url).

Definition apiClient_post (url : string) (data : JsValue) : Async Response :=
  apiClient 2 (post_request url data).

(** [authApi.login(credentials)]: on success the text of the data
    received is saved under [TOKEN_KEY], whatever the data is. *)
Definition authApi_login (credentials : JsValue) : Promise Response :=
  api_call
    (response ← apiClient_post "/token/" credentials;
     secureStorage_setItem_data TOKEN_KEY (JSON_stringify_data (body response));;
     mret response).

(** [authApi.getCurrentUser()]. *)
Definition authApi_getCurrentUser : Promise Response :=
  api_call (apiClient_get "/me/").

(** [authApi.logout()], with the console lines of its revision. *)
Definition authApi_logout : Async unit :=
  console_log "authApi.logout called";;
  try_catch
    (secureStorage_deleteItem TOKEN_KEY;;
     console_log "Token deleted successfully")
    (fun error => console_log "登出时清除token失败:").

(** [authApi.hasValidToken()]: [!!tokens]. *)
Definition authApi_hasValidToken : Async bool :=
  try_catch
    (tokens ← secureStorage_getItem TOKEN_KEY;
     mret (truthy_item tokens))
    (fun error => mret false).

(** [imagesApi.getImage(id)], [groupsApi.getGroups()] and
    [groupsApi.getGroup(id)]. *)
Definition imagesApi_getImage (id : Z) : Promise Response :=
  api_call (apiClient_get ("/images/" +:+ pretty id +:+ "/")).

Definition groupsApi_getGroups : Promise Response :=
  api_call (apiClient_get "/groups/").

Definition groupsApi_getGroup (id : Z) : Promise Response :=
  api_call (apiClient_get ("/groups/" +:+ pretty id +:+ "/")).

End ApiFunctions.

End ApiCalls.

(** ** [src/store/slices/authSlice.ts] *)

Module AuthSlice.
Import Api ApiCalls.

(** How a thunk ends: fulfilled with its payload, rejected with the value
    given to [rejectWithValue], or rejected by an exception of its own. *)
Inductive ThunkResult (A : Type) : Type :=
| fulfilled (payload : A)
| rejected (payload : JsValue)
| threw (e : JsError).
Arguments fulfilled {A} payload.
Arguments rejected {A} payload.
Arguments threw {A} e.

Definition Thunk (A : Type) : Type := World -> option (ThunkResult A * World).

(** The [catch] block of [loginUser]: the message given to
    [rejectWithValue]. *)
Definition loginUser_errorMessage (apiError : JsValue) : Completion JsValue :=
  errorMessage ← js_get apiError "message";
  status ← js_get apiError "status";
  if is_number status 401 then Normal (JsString "用户名或密码错误，请检查后重试")
  else if is_number status 400 then Normal (JsString "请求格式错误，请检查输入信息")
  else if is_number status 429 then Normal (JsString "登录尝试过于频繁，请稍后再试")
  else if is_number status 500 then Normal (JsString "服务器内部错误，请稍后重试")
  else
    code ← js_get apiError "code";
    if is_string code "NETWORK_ERROR" then
      Normal (JsString "网络连接失败，请检查网络设置")
    else Normal errorMessage.

Definition reject_with (message : Completion JsValue) {A : Type} : ThunkResult A :=
  match message with
  | Normal value => rejected value
  | Throw e => threw e
  end.

Section Thunks.
Context `{JSON} `{JSONData}.

(** [loginUser(credentials)]: log in, then fetch the user; its console
    output is left out. *)
Definition loginUser (credentials : JsValue) : Thunk (JsValue * JsValue) :=
  fun w =>
    match authApi_login credentials w with
    | Some (Fulfilled loginResponse, w1) =>
        match authApi_getCurrentUser w1 with
        | Some (Fulfilled userResponse, w2) =>
            Some (fulfilled (body loginResponse, body userResponse), w2)
        | Some (Rejected apiError, w2) =>
            Some (reject_with (loginUser_errorMessage apiError), w2)
        | None => None
        end
    | Some (Rejected apiError, w1) =>
        Some (reject_with (loginUser_errorMessage apiError), w1)
    | None => None
    end.

(** [getCurrentUser()]. *)
Definition getCurrentUser : Thunk JsValue :=
  fun w =>
    match authApi_getCurrentUser w with
    | Some (Fulfilled response, w1) => Some (fulfilled (body response), w1)
    | Some (Rejected apiError, w1) =>
        Some (reject_with (js_get apiError "message"), w1)
    | None => None
    end.

(** The [catch] block of [checkAuthStatus]: log out and return [null]. *)
Definition logout_and_null : Thunk JsValue :=
  fun w =>
    match authApi_logout w with
    | Some (Normal _, w') => Some (fulfilled JsNull, w')
    | Some (Throw e, w') => Some (threw e, w')
    | None => None
    end.

(** [checkAuthStatus()]. *)
Definition checkAuthStatus : Thunk JsValue :=
  fun w =>
    match authApi_hasValidToken w with
    | Some (Normal hasToken, w1) =>
        if hasToken : bool then
          match authApi_getCurrentUser w1 with
          | Some (Fulfilled response, w2) => Some (fulfilled (body response), w2)
          | Some (Rejected _, w2) => logout_and_null w2
          | None => None
          end
        else Some (fulfilled JsNull, w1)
    | Some (Throw _, w1) => logout_and_null w1
    | None => None
    end.

(** [logoutUser()]. *)
Definition logoutUser : Thunk unit :=
  fun w =>
    match authApi_logout w with
    | Some (Normal _, w') => Some (fulfilled tt, w')
    | Some (Throw e, w') => Some (threw e, w')
    | None => None
    end.

End Thunks.

(** *** The reducer *)

Section Reducer.
Variable User : Type.

Record AuthState : Type := mkAuthState {
  user : option User;
  tokens : option AuthTokens;
  isAuthenticated : bool;
  isLoading : bool;
  error : option string
}.

Definition initialState : AuthState :=
  mkAuthState None None false false None.

(** The actions the slice handles; any other action leaves the state as
    it is. *)
Inductive Action : Type :=
| clearError
| clearAuth
| loginUser_pending
| loginUser_fulfilled (payload_tokens : AuthTokens) (payload_user : User)
| loginUser_rejected (payload : option string)
| getCurrentUser_pending
| getCurrentUser_fulfilled (payload : User)
| getCurrentUser_rejected (payload : option string)
| checkAuthStatus_pending
| checkAuthStatus_fulfilled (payload : option User)
| checkAuthStatus_rejected
| logoutUser_fulfilled
| other_action.

(** [action.payload || fallback] on a [string | undefined]. *)
Definition payload_or (payload : option string) (fallback : string) : string :=
  match payload with
  | Some text => if String.eqb text "" then fallback else text
  | None => fallback
  end.

Definition authReducer (state : AuthState) (action : Action) : AuthState :=
  match action with
  | clearError =>
      mkAuthState (user state) (tokens state) (isAuthenticated state)
        (isLoading state) None
  | clearAuth =>
      mkAuthState None None false (isLoading state) None
  | loginUser_pending =>
      mkAuthState (user state) (tokens state) (isAuthenticated state) true None
  | loginUser_fulfilled payload_tokens payload_user =>
      mkAuthState (Some payload_user) (Some payload_tokens) true false None
  | loginUser_rejected payload =>
      mkAuthState (user state) (tokens state) false false
        (Some (payload_or payload "登录失败"))
  | getCurrentUser_pending =>
      mkAuthState (user state) (tokens state) (isAuthenticated state) true
        (error state)
  | getCurrentUser_fulfilled payload =>
      mkAuthState (Some payload) (tokens state) true false (error state)
  | getCurrentUser_rejected payload =>
      mkAuthState (user state) (tokens state) (isAuthenticated state) false
        (Some (payload_or payload "获取用户信息失败"))
  | checkAuthStatus_pending =>
      mkAuthState (user state) (tokens state) (isAuthenticated state) true
        (error state)
  | checkAuthStatus_fulfilled payload =>
      match payload with
      | Some u =>
          mkAuthState (Some u) (tokens state) true false (error state)
      | None =>
          mkAuthState None (tokens state) false false (error state)
      end
  | checkAuthStatus_rejected =>
      mkAuthState None (tokens state) false false (error state)
  | logoutUser_fulfilled =>
      mkAuthState None None false (isLoading state) None
  | other_action => state
  end.

End Reducer.

End AuthSlice.

(** ** Definitions used in the statements *)

Section Observations.
Import Api.

(** A message the classifier can search: absent, [null], a string or an
    array. *)
Definition searchable (msg : JsValue) : bool :=
  match msg with
  | JsUndefined | JsNull | JsString _ | JsArray _ => true
  | _ => false
  end.

(** The body of the literal scenario of the specification:
    [{username: ["already exists"]}]. *)
Definition username_taken : JsValue :=
  JsObject [("username", JsArray [JsString "already exists"])].

(** A failure without status that carries axios's own message for an
    unreachable backend. *)
Definition connection_refused : JsValue :=
  JsObject [("message", JsString "Network Error")].

(** What [handleLogin] of the login screen passes to the classifier when
    the backend is unreachable: the message string [loginUser] rejected
    with. *)
Definition rejected_payload : JsValue :=
  JsString "网络连接失败，请检查网络设置".

(** The world after [secureStorage.getItem] and what it returned. *)
Definition loaded (w : World) : option string :=
  if hd false (faults w) then None else backing_store w !! TOKEN_KEY.

Definition after_load (w : World) : World :=
  if hd false (faults w)
  then log_event (EvConsoleLog "获取存储项失败:") (after_fault w)
  else after_fault w.

(** [w'] differs from [w] by consumed fault entries and console output
    only. *)
Definition quiet_step (w w' : World) : Prop :=
  backing_store w' = backing_store w /\
  api_script w' = api_script w /\
  refresh_script w' = refresh_script w /\
  dispatched (trace w') = dispatched (trace w) /\
  refresh_calls (trace w') = refresh_calls (trace w) /\
  trace w `prefix_of` trace w'.

(** The world after the refresh call that follows a load. *)
Definition after_refresh_call (refreshToken : string) (w : World) : World :=
  set_refresh_script (tail (refresh_script w))
    (log_event (EvRefreshCall refreshToken) w).

Definition after_delete (w : World) : World :=
  if hd false (faults w)
  then log_event (EvConsoleLog "删除存储项失败:") (after_fault w)
  else log_event (EvDeleted TOKEN_KEY)
         (write_backing (delete TOKEN_KEY (backing_store w)) (after_fault w)).

Definition after_save (value : string) (w : World) : World :=
  if hd false (faults w)
  then log_event (EvConsoleLog "设置存储项失败:") (after_fault w)
  else log_event (EvStored TOKEN_KEY value)
         (write_backing (<[TOKEN_KEY := value]> (backing_store w)) (after_fault w)).

(** The request carries [Authorization: Bearer <token>]. *)
Definition bearer (cfg : RequestConfig) (token : string) : Prop :=
  exists hs, headers cfg = Some hs /\ hs !! "Authorization" = Some ("Bearer " +:+ token).

(** The request carries no [Authorization] header. *)
Definition no_Authorization (cfg : RequestConfig) : Prop :=
  forall hs, headers cfg = Some hs -> hs !! "Authorization" = None.

Definition old_pair : AuthTokens := mkAuthTokens "old-access" "refresh-1".

(** [GET /me/] as the API layer builds it, and as the request interceptor
    sent it. *)
Definition get_me : RequestConfig :=
  mkRequestConfig "get" "/me/" None JsUndefined false.

Definition sent_me : RequestConfig := set_Authorization get_me "old-access".

Definition unauthorized : Response :=
  mkResponse 401 (JsObject [("detail", JsString "Token expired")]).

Definition error_401 : AxiosError :=
  mkAxiosError (Some sent_me) (Some unauthorized) true
    "Request failed with status code 401".

(** The refresh call finds the backend unreachable. *)
Definition refresh_down : AxiosError :=
  mkAxiosError None None true "Network Error".

(** A native device that holds [old_pair]. *)
Definition device (fs : list bool) (replies : list NetOutcome)
    (refreshes : list RefreshOutcome) : World :=
  mkWorld native ∅ {[TOKEN_KEY := tokens_stringify old_pair]} fs replies refreshes [].

Definition profile : Response := mkResponse 200 (JsObject [("id", JsNumber 1)]).

(** A native device after logout: nothing is stored. *)
Definition signed_out : World := mkWorld native ∅ ∅ [] [] [] [].

End Observations.

(** ** An implementation of the JSON interfaces for response data *)

(** [JSON.stringify] on the values of the model: [undefined] has no text,
    prints as [null] inside an array and is left out of an object. *)
Fixpoint data_stringify (v : JsValue) : option string :=
  match v with
  | JsUndefined => None
  | JsNull => Some "null"
  | JsBool true => Some "true"
  | JsBool false => Some "false"
  | JsNumber n => Some (pretty n)
  | JsString s => Some (json_quote s)
  | JsArray elems =>
      Some ("[" +:+
            String.concat ","
              (List.map (fun x => default "null" (data_stringify x)) elems) +:+
            "]")
  | JsObject fields =>
      Some ("{" +:+
            String.concat ","
              ((fix members (fields : list (string * JsValue)) : list string :=
                  match fields with
                  | [] => []
                  | (k, x) :: rest =>
                      match data_stringify x with
                      | Some text => (json_quote k +:+ ":" +:+ text) :: members rest
                      | None => members rest
                      end
                  end) fields) +:+
            "}")
  end.

Definition DataJSON : ApiCalls.JSONData := ApiCalls.mkJSONData data_stringify.

(** A parser of token pairs that takes the two members in either order,
    as the backend sends [refresh] before [access]. *)
Definition tokens_parse_members (s : string) : option AuthTokens :=
  s ← json_expect "{" s;
  '(k1, s) ← json_read_string s;
  s ← json_expect ":" s;
  '(v1, s) ← json_read_string s;
  s ← json_expect "," s;
  '(k2, s) ← json_read_string s;
  s ← json_expect ":" s;
  '(v2, s) ← json_read_string s;
  s ← json_expect "}" s;
  if String.eqb k1 "access" && String.eqb k2 "refresh" && String.eqb s ""
  then Some (mkAuthTokens v1 v2)
  else if String.eqb k1 "refresh" && String.eqb k2 "access" && String.eqb s ""
  then Some (mkAuthTokens v2 v1)
  else None.

Lemma tokens_parse_members_stringify t :
  tokens_parse_members (tokens_stringify t) = Some t.
Proof.
  destruct t as [a r]. unfold tokens_parse_members, tokens_stringify.
  cbn [access refresh json_expect]. rewrite Ascii.eqb_refl.
  cbn [mbind option_bind].
  do 3 read_field.
  rewrite json_read_string_quote.
  cbn [mbind option_bind json_expect]. rewrite Ascii.eqb_refl.
  reflexivity.
Qed.

Definition MembersJSON : JSON :=
  mkJSON tokens_stringify tokens_parse_members tokens_parse_members_stringify
    tokens_stringify_nonempty.

(** ** Further definitions used in the statements *)

Section ObservationsFurther.
Import ErrorHandling Api ApiCalls AuthSlice.

(** The ten results the classifier can return for an input. *)
Definition classifications (error : JsValue) : list LoginError :=
  [ mkLoginError network "网络连接失败，请检查网络设置后重试" error true;
    mkLoginError validation "用户名或密码格式不正确，请检查输入" error false;
    mkLoginError authentication "用户名或密码错误，请重新输入" error false;
    mkLoginError authentication "账户被禁用或权限不足，请联系管理员" error false;
    mkLoginError server "登录尝试过于频繁，请稍后再试" error true;
    mkLoginError server "服务器临时不可用，请稍后重试" error true;
    mkLoginError validation "用户名不存在，请检查用户名是否正确" error false;
    mkLoginError authentication "密码错误，请重新输入正确的密码" error false;
    mkLoginError network "连接超时，请检查网络后重试" error true;
    mkLoginError unknown "登录失败，请稍后重试" error true ].

(** The [switch] of the classifier as a table. *)
Definition status_table (code : Z) : option (ErrorType * string * bool) :=
  if code =? 400 then Some (validation, "用户名或密码格式不正确，请检查输入", false)
  else if code =? 401 then Some (authentication, "用户名或密码错误，请重新输入", false)
  else if code =? 403 then Some (authentication, "账户被禁用或权限不足，请联系管理员", false)
  else if code =? 429 then Some (server, "登录尝试过于频繁，请稍后再试", true)
  else if (code =? 500) || (code =? 502) || (code =? 503)
  then Some (server, "服务器临时不可用，请稍后重试", true)
  else None.

(** [w'] continues [w] with the requests [ds] and the refresh calls [rs]. *)
Definition continues (w w' : World) (ds : list RequestConfig) (rs : list string) : Prop :=
  dispatched (trace w') = dispatched (trace w) ++ ds /\
  refresh_calls (trace w') = refresh_calls (trace w) ++ rs.

(** The world after a successful login from a signed-out device. *)
Definition after_login (credentials : JsValue) (text : string) (w : World) : World :=
  log_event (EvStored TOKEN_KEY text)
    (write_backing
       (<[TOKEN_KEY := text]> (backing_store w))
       (after_dispatch (post_request "/token/" credentials) w)).

(** The state after a sequence of actions. *)
Definition run_actions (User : Type) (state : AuthState User)
    (actions : list (Action User)) : AuthState User :=
  fold_left (authReducer User) actions state.

Definition is_login_fulfilled (User : Type) (action : Action User) : bool :=
  match action with
  | loginUser_fulfilled _ _ _ => true
  | _ => false
  end.

(** The credentials typed into the form, and the backend's answer to a
    good login. *)
Definition ann : JsValue :=
  JsObject [("username", JsString "ann"); ("password", JsString "secret-1")].

Definition granted : Response :=
  mkResponse 200
    (JsObject [("refresh", JsString "refresh-2"); ("access", JsString "access-2")]).

(** A signed-out native device facing the given answers of the backend. *)
Definition fresh_device (replies : list NetOutcome) : World :=
  mkWorld native ∅ ∅ [] replies [] [].

End ObservationsFurther.

(** * Properties of the error classifier *)

Section ClassifierProperties.
Import ErrorHandling.

Lemma js_includes_opt_searchable msg needle :
  searchable msg = true -> exists b, js_includes_opt msg needle = Normal b.
Proof. destruct msg; try discriminate; intros _; eexists; reflexivity. Qed.

Lemma js_includes_or_empty_searchable msg needle :
  searchable msg = true ->
  exists b, js_includes (if truthy msg then msg else JsString "") needle = Normal b.
Proof.
  destruct msg; try discriminate; intros _; cbn [truthy];
    try (eexists; reflexivity).
  destruct (negb _); eexists; reflexivity.
Qed.

Lemma js_get_total error prop :
  nullish error = false -> js_get error prop = Normal (js_get_opt error prop).
Proof. destruct error; try discriminate; reflexivity. Qed.

Lemma falsy_is_not_number st n :
  truthy st = false -> n <> 0 -> is_number st n = false.
Proof.
  destruct st; try reflexivity. cbn [truthy is_number]. intros Hz Hn.
  apply negb_false_iff, Z.eqb_eq in Hz. subst. apply Z.eqb_neq. congruence.
Qed.

(** C5.  An input whose [status] is the number 400 is classified as
    validation and not retryable; 401 and 403 as authentication and not
    retryable, with different message texts; 429 as server and retryable;
    500, 502 and 503 as server and retryable.  The rest of the input plays
    no part. *)
Theorem parseLoginError_status_table (error : JsValue) (code : Z) :
  js_get error "status" = Normal (JsNumber code) ->
  (code = 400 ->
   parseLoginError error =
     Normal (mkLoginError validation "用户名或密码格式不正确，请检查输入" error false)) /\
  (code = 401 ->
   parseLoginError error =
     Normal (mkLoginError authentication "用户名或密码错误，请重新输入" error false)) /\
  (code = 403 ->
   parseLoginError error =
     Normal (mkLoginError authentication "账户被禁用或权限不足，请联系管理员" error false)) /\
  (code = 429 ->
   parseLoginError error =
     Normal (mkLoginError server "登录尝试过于频繁，请稍后再试" error true)) /\
  (code = 500 \/ code = 502 \/ code = 503 ->
   parseLoginError error =
     Normal (mkLoginError server "服务器临时不可用，请稍后重试" error true)) /\
  "用户名或密码错误，请重新输入" <> "账户被禁用或权限不足，请联系管理员".
Proof.
  intros Hst. unfold parseLoginError. rewrite Hst.
  repeat split; try discriminate;
    try (intros ->; reflexivity).
  intros [-> | [-> | ->]]; reflexivity.
Qed.

Lemma parseLoginError_status_table_witness :
  parseLoginError (JsObject [("status", JsNumber 403); ("message", JsString "Forbidden")]) =
    Normal (mkLoginError authentication "账户被禁用或权限不足，请联系管理员"
              (JsObject [("status", JsNumber 403); ("message", JsString "Forbidden")])
              false).
Proof.
  exact (proj1 (proj2 (proj2
    (parseLoginError_status_table
       (JsObject [("status", JsNumber 403); ("message", JsString "Forbidden")])
       403 eq_refl))) eq_refl).
Defined.

(** C6, as the code has it.  An input without a (truthy) status is
    classified as network and retryable when its message text contains
    "网络", and also when the text contains "超时" or "timeout" and none of
    "网络", "用户名", "密码". *)
Theorem parseLoginError_no_status_network (error st : JsValue) (text : string) :
  js_get error "status" = Normal st ->
  truthy st = false ->
  js_get error "message" = Normal (JsString text) ->
  (String_includes text "网络" = true ->
   parseLoginError error =
     Normal (mkLoginError network "网络连接失败，请检查网络设置后重试" error true)) /\
  (String_includes text "网络" = false ->
   String_includes text "用户名" = false ->
   String_includes text "密码" = false ->
   String_includes text "超时" || String_includes text "timeout" = true ->
   parseLoginError error =
     Normal (mkLoginError network "连接超时，请检查网络后重试" error true)).
Proof.
  intros Hst Hfalsy Hmsg. unfold parseLoginError.
  rewrite Hst, Hmsg. cbn [mbind Completion_bind]. rewrite Hfalsy.
  cbn [mbind Completion_bind js_includes_opt nullish js_includes].
  split.
  - intros ->. reflexivity.
  - intros -> Huser Hpwd Htime.
    rewrite !(falsy_is_not_number st) by (assumption || discriminate).
    cbn [orb truthy].
    destruct (String.eqb text "") eqn:Hempty.
    + apply String.eqb_eq in Hempty. subst text. discriminate Htime.
    + cbn [negb js_includes mbind Completion_bind].
      rewrite Huser, Hpwd.
      destruct (String_includes text "超时"); cbn [orb] in Htime; [reflexivity|].
      rewrite Htime. reflexivity.
Qed.

Lemma parseLoginError_no_status_network_witness :
  parseLoginError
    (JsObject [("message", JsString "网络连接失败，请检查网络设置");
               ("code", JsString "NETWORK_ERROR")]) =
  Normal (mkLoginError network "网络连接失败，请检查网络设置后重试"
            (JsObject [("message", JsString "网络连接失败，请检查网络设置");
                       ("code", JsString "NETWORK_ERROR")])
            true).
Proof.
  exact (proj1
    (parseLoginError_no_status_network
       (JsObject [("message", JsString "网络连接失败，请检查网络设置");
                  ("code", JsString "NETWORK_ERROR")])
       JsUndefined "网络连接失败，请检查网络设置" eq_refl eq_refl eq_refl) eq_refl).
Defined.

(** C6, as stated, fails: a failure without status whose message is
    [Network Error] is classified as unknown, not as network; so is a bare
    message string, which has neither status nor message property. *)
Lemma parseLoginError_no_status_unknown :
  js_get connection_refused "status" = Normal JsUndefined /\
  parseLoginError connection_refused =
    Normal (mkLoginError unknown "登录失败，请稍后重试" connection_refused true) /\
  js_get rejected_payload "status" = Normal JsUndefined /\
  parseLoginError rejected_payload =
    Normal (mkLoginError unknown "登录失败，请稍后重试" rejected_payload true) /\
  unknown <> network.
Proof. repeat split; discriminate. Qed.

(** C7, as the code has it.  For every failure with HTTP status 400 and
    body [{username: ["already exists"]}], [handleApiError] builds the
    [ApiError] whose message is the username-field detail, and the
    classifier maps that [ApiError] to kind validation, not retryable, with
    its own fixed message; the detail survives only in the cause. *)
Theorem username_taken_classification (e : AxiosError) :
  response e = Some (mkResponse 400 username_taken) ->
  Api.handleApiError e =
    JsObject [("message", JsString "用户名: already exists");
              ("status", JsNumber 400);
              ("code", JsUndefined)] /\
  String_includes "用户名: already exists" "already exists" = true /\
  parseLoginError (Api.handleApiError e) =
    Normal (mkLoginError validation "用户名或密码格式不正确，请检查输入"
              (Api.handleApiError e) false) /\
  String_includes "用户名或密码格式不正确，请检查输入" "already exists" = false.
Proof.
  intros Hresp.
  assert (Hapi : Api.handleApiError e =
                 JsObject [("message", JsString "用户名: already exists");
                           ("status", JsNumber 400);
                           ("code", JsUndefined)]).
  { unfold Api.handleApiError. rewrite Hresp. reflexivity. }
  rewrite Hapi. repeat split.
Qed.

Lemma username_taken_classification_witness :
  parseLoginError
    (Api.handleApiError
       (mkAxiosError None (Some (mkResponse 400 username_taken)) true
          "Request failed with status code 400")) =
  Normal (mkLoginError validation "用户名或密码格式不正确，请检查输入"
            (Api.handleApiError
               (mkAxiosError None (Some (mkResponse 400 username_taken)) true
                  "Request failed with status code 400"))
            false).
Proof.
  exact (proj1 (proj2 (proj2
    (username_taken_classification
       (mkAxiosError None (Some (mkResponse 400 username_taken)) true
          "Request failed with status code 400")
       eq_refl)))).
Defined.

(** C7, as stated, fails: no failure with status 400 and that body is
    classified with a message that includes the detail text. *)
Lemma username_detail_not_in_message :
  ~ exists (e : AxiosError) (r : LoginError),
      response e = Some (mkResponse 400 username_taken) /\
      parseLoginError (Api.handleApiError e) = Normal r /\
      type r = validation /\
      String_includes (message r) "already exists" = true.
Proof.
  intros (e & r & Hresp & Hparse & _ & Hincl).
  assert (Hapi : Api.handleApiError e =
                 JsObject [("message", JsString "用户名: already exists");
                           ("status", JsNumber 400);
                           ("code", JsUndefined)]).
  { unfold Api.handleApiError. rewrite Hresp. reflexivity. }
  rewrite Hapi in Hparse. inversion Hparse; subst r.
  discriminate Hincl.
Qed.

(** C8, as the code has it.  For every input other than [null] and
    [undefined] whose [message] is absent, [null], a string or an array,
    the classifier returns a classified error whose cause is the input. *)
Theorem parseLoginError_returns (error : JsValue) :
  nullish error = false ->
  searchable (js_get_opt error "message") = true ->
  exists r, parseLoginError error = Normal r /\ originalError r = error.
Proof.
  intros Hnn Hmsg. unfold parseLoginError.
  rewrite !(js_get_total error) by exact Hnn.
  set (st := js_get_opt error "status").
  set (msg := js_get_opt error "message") in *.
  cbn [mbind Completion_bind].
  destruct (js_includes_opt_searchable msg "网络" Hmsg) as [b0 Hb0].
  destruct (js_includes_or_empty_searchable msg "用户名" Hmsg) as [b1 Hb1].
  destruct (js_includes_or_empty_searchable msg "密码" Hmsg) as [b2 Hb2].
  destruct (js_includes_or_empty_searchable msg "超时" Hmsg) as [b3 Hb3].
  destruct (js_includes_or_empty_searchable msg "timeout" Hmsg) as [b4 Hb4].
  assert (Hnet : exists b,
             (if truthy st then Normal false else js_includes_opt msg "网络")
             = Normal b).
  { destruct (truthy st); eauto. }
  destruct Hnet as [b Hnet]. rewrite Hnet. cbn [mbind Completion_bind].
  destruct b; [eauto|].
  repeat match goal with
         | |- context [is_number st ?n] => destruct (is_number st n)
         end; cbn [orb]; eauto;
    rewrite Hb1; cbn [mbind Completion_bind]; destruct b1; eauto;
    rewrite Hb2; cbn [mbind Completion_bind]; destruct b2; eauto;
    rewrite Hb3; cbn [mbind Completion_bind]; destruct b3;
    cbn [mbind Completion_bind]; eauto;
    rewrite Hb4; cbn [mbind Completion_bind]; destruct b4; eauto.
Qed.

Lemma parseLoginError_returns_witness :
  exists r,
    parseLoginError (JsString "用户名或密码错误，请检查后重试") = Normal r /\
    originalError r = JsString "用户名或密码错误，请检查后重试".
Proof.
  exact (parseLoginError_returns (JsString "用户名或密码错误，请检查后重试")
           eq_refl eq_refl).
Defined.

(** C8, as stated, fails: on [null] the classifier throws. *)
Lemma parseLoginError_null_throws :
  parseLoginError JsNull = Throw (TypeError "Cannot read properties") /\
  parseLoginError (JsObject [("message", JsNumber 5)]) =
    Throw (TypeError "includes is not a function").
Proof. split; reflexivity. Qed.

End ClassifierProperties.

(** * Properties of the credential store and of the request pipeline *)

Section PipelineProperties.
Import Api.
Context `{JSON}.

Ltac world_simpl :=
  cbn [trace faults api_script refresh_script Platform_OS localStorage
       SecureStore log_event after_fault set_faults set_api_script
       set_refresh_script write_backing set_store_of].

Lemma backing_store_write m w : backing_store (write_backing m w) = m.
Proof.
  unfold backing_store, store_of. world_simpl.
  destruct (Platform_OS w); reflexivity.
Qed.

Lemma backing_store_log ev w : backing_store (log_event ev w) = backing_store w.
Proof. reflexivity. Qed.

Lemma dispatched_app tr1 tr2 :
  dispatched (tr1 ++ tr2) = dispatched tr1 ++ dispatched tr2.
Proof. apply omap_app. Qed.

Lemma refresh_calls_app tr1 tr2 :
  refresh_calls (tr1 ++ tr2) = refresh_calls tr1 ++ refresh_calls tr2.
Proof. apply omap_app. Qed.

Lemma dispatched_snoc tr ev :
  dispatched (tr ++ [ev]) =
  dispatched tr ++ match ev with EvDispatch cfg => [cfg] | _ => [] end.
Proof. unfold dispatched. rewrite omap_app. destruct ev; reflexivity. Qed.

Lemma refresh_calls_snoc tr ev :
  refresh_calls (tr ++ [ev]) =
  refresh_calls tr ++ match ev with EvRefreshCall t => [t] | _ => [] end.
Proof. unfold refresh_calls. rewrite omap_app. destruct ev; reflexivity. Qed.

Lemma secureStorage_getItem_run key w :
  secureStorage_getItem key w =
  Some (if hd false (faults w)
        then (Normal None, log_event (EvConsoleLog "获取存储项失败:") (after_fault w))
        else (Normal (backing_store w !! key), after_fault w)).
Proof.
  cbv [secureStorage_getItem try_catch mbind Async_bind Platform_OS_is_web
    localStorage_getItem SecureStore_getItemAsync platform_getItem next_fault
    backing_store reject console_log emit mret Async_ret].
  destruct (Platform_OS w), (hd false (faults w)); reflexivity.
Qed.

Lemma secureStorage_setItem_run key value w :
  secureStorage_setItem key value w =
  Some (Normal tt,
        if hd false (faults w)
        then log_event (EvConsoleLog "设置存储项失败:") (after_fault w)
        else log_event (EvStored key value)
               (write_backing (<[key := value]> (backing_store w)) (after_fault w))).
Proof.
  cbv [secureStorage_setItem try_catch mbind Async_bind Platform_OS_is_web
    localStorage_setItem SecureStore_setItemAsync platform_setItem next_fault
    backing_store write_backing reject console_log emit mret Async_ret].
  destruct (Platform_OS w) eqn:Hos, (hd false (faults w)); try reflexivity;
    unfold set_store_of, store_of; world_simpl; rewrite Hos; reflexivity.
Qed.

Lemma secureStorage_deleteItem_run key w :
  secureStorage_deleteItem key w =
  Some (Normal tt,
        if hd false (faults w)
        then log_event (EvConsoleLog "删除存储项失败:") (after_fault w)
        else log_event (EvDeleted key)
               (write_backing (delete key (backing_store w)) (after_fault w))).
Proof.
  cbv [secureStorage_deleteItem try_catch mbind Async_bind Platform_OS_is_web
    localStorage_removeItem SecureStore_deleteItemAsync platform_deleteItem next_fault
    backing_store write_backing reject console_log emit mret Async_ret].
  destruct (Platform_OS w) eqn:Hos, (hd false (faults w)); try reflexivity;
    unfold set_store_of, store_of; world_simpl; rewrite Hos; reflexivity.
Qed.

Lemma getItem_loaded w :
  secureStorage_getItem TOKEN_KEY w = Some (Normal (loaded w), after_load w).
Proof.
  rewrite secureStorage_getItem_run. unfold loaded, after_load.
  destruct (hd false (faults w)); reflexivity.
Qed.

Lemma requestInterceptor_run config w :
  requestInterceptor config w =
  if truthy_item (loaded w) then
    match JSON_parse (default "" (loaded w)) with
    | Some parsedTokens =>
        Some (Normal (set_Authorization config (access parsedTokens)), after_load w)
    | None =>
        Some (Normal config, log_event (EvConsoleLog "获取token失败:") (after_load w))
    end
  else Some (Normal config, after_load w).
Proof.
  unfold requestInterceptor, try_catch, mbind, Async_bind.
  rewrite getItem_loaded.
  destruct (truthy_item (loaded w)); [|reflexivity].
  unfold parse_tokens. destruct (JSON_parse _); reflexivity.
Qed.


Lemma dispatch_run config w :
  dispatch config w =
  Some (match hd unreachable (api_script w) with
        | NetResolved r => Normal r
        | NetRejected r msg => Throw (ErrAxios (mkAxiosError (Some config) r true msg))
        end,
        set_api_script (tail (api_script w)) (log_event (EvDispatch config) w)).
Proof.
  cbv [dispatch mbind Async_bind emit next_reply reject mret Async_ret].
  world_simpl. destruct (hd unreachable (api_script w)); reflexivity.
Qed.

Lemma axios_post_refresh_run refreshToken w :
  axios_post_refresh refreshToken w =
  Some (match hd refresh_unreachable (refresh_script w) with
        | RefreshResolved newAccess => Normal newAccess
        | RefreshRejected e => Throw (ErrAxios e)
        end,
        set_refresh_script (tail (refresh_script w))
          (log_event (EvRefreshCall refreshToken) w)).
Proof.
  cbv [axios_post_refresh mbind Async_bind emit next_refresh_reply reject mret
       Async_ret].
  world_simpl. destruct (hd refresh_unreachable (refresh_script w)); reflexivity.
Qed.

Lemma quiet_step_after_load w : quiet_step w (after_load w).
Proof.
  unfold quiet_step, after_load. destruct (hd false (faults w)); world_simpl;
    rewrite ?dispatched_snoc, ?refresh_calls_snoc, ?app_nil_r;
    auto 10 using prefix_app_r.
Qed.

Lemma quiet_step_log label w w' :
  quiet_step w w' -> quiet_step w (log_event (EvConsoleLog label) w').
Proof.
  intros (Hs & Ha & Hr & Hd & Hc & Hp). unfold quiet_step. world_simpl.
  rewrite dispatched_snoc, refresh_calls_snoc, !app_nil_r.
  auto 10 using prefix_app_r.
Qed.

Lemma requestInterceptor_total config w :
  exists config' w',
    requestInterceptor config w = Some (Normal config', w') /\
    quiet_step w w' /\
    _retry config' = _retry config.
Proof.
  rewrite requestInterceptor_run.
  destruct (truthy_item (loaded w)); [destruct (JSON_parse _)|];
    do 2 eexists; (split; [reflexivity|]); split;
    auto using quiet_step_after_load, quiet_step_log.
Qed.

Lemma set_retry_retried cfg : _retry cfg = true -> set_retry cfg = cfg.
Proof. destruct cfg; cbn. intros ->. reflexivity. Qed.

Lemma set_config_same error cfg : config error = Some cfg -> set_config error cfg = error.
Proof. destruct error; cbn. intros ->. reflexivity. Qed.

Lemma responseInterceptor_retried apiClient error originalRequest w :
  config error = Some originalRequest ->
  _retry originalRequest = true ->
  responseInterceptor apiClient error w = Some (Throw (ErrAxios error), w).
Proof.
  intros Hcfg Hretry. unfold responseInterceptor.
  rewrite Hcfg, Hretry, andb_false_r. reflexivity.
Qed.

(** A request already marked as retried goes through the pipeline with one
    dispatch and no refresh call, whatever the backend answers. *)
Lemma apiClient_retried n cfg w :
  _retry cfg = true ->
  exists sent w1 w',
    requestInterceptor cfg w = Some (Normal sent, w1) /\
    apiClient (S n) cfg w =
      Some (match hd unreachable (api_script w) with
            | NetResolved r => Normal r
            | NetRejected r msg =>
                Throw (ErrAxios (mkAxiosError (Some sent) r true msg))
            end, w') /\
    backing_store w' = backing_store w /\
    dispatched (trace w') = dispatched (trace w) ++ [sent] /\
    refresh_calls (trace w') = refresh_calls (trace w) /\
    trace w `prefix_of` trace w'.
Proof.
  intros Hretry.
  destruct (requestInterceptor_total cfg w)
    as (sent & w1 & Hreq & (Hs & Ha & Hr & Hd & Hc & Hp) & Hsent).
  exists sent, w1,
    (set_api_script (tail (api_script w1)) (log_event (EvDispatch sent) w1)).
  split; [exact Hreq|]. split; [|split; [|split; [|split]]].
  - cbn [apiClient]. unfold mbind, Async_bind, try_catch at 1.
    rewrite Hreq, dispatch_run, Ha.
    destruct (hd unreachable (api_script w)) as [r|r msg]; [reflexivity|].
    apply responseInterceptor_retried with sent; [reflexivity | congruence].
  - exact Hs.
  - world_simpl. rewrite dispatched_snoc, Hd. reflexivity.
  - world_simpl. rewrite refresh_calls_snoc, Hc, app_nil_r. reflexivity.
  - world_simpl. apply prefix_app_r, Hp.
Qed.

Lemma responseInterceptor_absent apiClient error cfg w :
  config error = Some cfg ->
  status_is error 401 = true ->
  _retry cfg = false ->
  truthy_item (loaded w) = false ->
  responseInterceptor apiClient error w =
    Some (Throw (ErrAxios (set_config error (set_retry cfg))), after_load w).
Proof.
  intros Hcfg H401 Hretry Habsent. unfold responseInterceptor.
  rewrite Hcfg, Hretry.
  replace (status_is error 401) with true. cbn [andb negb].
  unfold mbind, Async_bind, try_catch.
  rewrite getItem_loaded, Habsent. reflexivity.
Qed.

Lemma responseInterceptor_refresh_rejected apiClient error cfg w raw parsed e :
  config error = Some cfg ->
  status_is error 401 = true ->
  _retry cfg = false ->
  loaded w = Some raw ->
  raw <> "" ->
  JSON_parse raw = Some parsed ->
  hd refresh_unreachable (refresh_script w) = RefreshRejected e ->
  responseInterceptor apiClient error w =
    Some (Throw (ErrAxios e),
          after_delete (after_refresh_call (refresh parsed) (after_load w))).
Proof.
  intros Hcfg H401 Hretry Hload Hraw Hparse Hreply. unfold responseInterceptor.
  rewrite Hcfg, Hretry.
  replace (status_is error 401) with true. cbn [andb negb].
  unfold mbind, Async_bind, try_catch, parse_tokens.
  rewrite getItem_loaded, Hload. cbn [truthy_item from_option id].
  apply String.eqb_neq in Hraw. rewrite Hraw, Hparse. cbn [negb].
  cbv [mret Async_ret]. rewrite axios_post_refresh_run.
  replace (refresh_script w) with (refresh_script (after_load w)) in Hreply
    by apply quiet_step_after_load.
  rewrite Hreply, secureStorage_deleteItem_run. reflexivity.
Qed.

Lemma responseInterceptor_refresh_resolved apiClient error cfg w raw parsed newAccess :
  config error = Some cfg ->
  status_is error 401 = true ->
  _retry cfg = false ->
  loaded w = Some raw ->
  raw <> "" ->
  JSON_parse raw = Some parsed ->
  hd refresh_unreachable (refresh_script w) = RefreshResolved newAccess ->
  responseInterceptor apiClient error w =
    apiClient (set_Authorization (set_retry cfg) newAccess)
      (after_save (JSON_stringify (mkAuthTokens newAccess (refresh parsed)))
         (after_refresh_call (refresh parsed) (after_load w))).
Proof.
  intros Hcfg H401 Hretry Hload Hraw Hparse Hreply. unfold responseInterceptor.
  rewrite Hcfg, Hretry.
  replace (status_is error 401) with true. cbn [andb negb].
  unfold mbind, Async_bind, try_catch, parse_tokens.
  rewrite getItem_loaded, Hload. cbn [truthy_item from_option id].
  apply String.eqb_neq in Hraw. rewrite Hraw, Hparse. cbn [negb].
  cbv [mret Async_ret]. rewrite axios_post_refresh_run.
  replace (refresh_script w) with (refresh_script (after_load w)) in Hreply
    by apply quiet_step_after_load.
  rewrite Hreply, secureStorage_setItem_run. reflexivity.
Qed.

Lemma loaded_absent w : backing_store w !! TOKEN_KEY = None -> loaded w = None.
Proof. unfold loaded. destruct (hd false (faults w)); auto. Qed.

Lemma loaded_present w raw :
  hd false (faults w) = false -> backing_store w !! TOKEN_KEY = Some raw ->
  loaded w = Some raw.
Proof. unfold loaded. intros ->. auto. Qed.

Lemma bearer_set_Authorization cfg token : bearer (set_Authorization cfg token) token.
Proof. eexists. split; [reflexivity|]. apply lookup_insert_eq. Qed.

Lemma truthy_item_stringify t : truthy_item (Some (JSON_stringify t)) = true.
Proof.
  cbn [truthy_item]. apply negb_true_iff, String.eqb_neq, JSON_stringify_nonempty.
Qed.

(** A request that already carries the access token of the stored pair
    leaves the request interceptor carrying it, whether or not the load
    succeeds. *)
Lemma requestInterceptor_keeps_bearer cfg w t sent w' :
  backing_store w !! TOKEN_KEY = Some (JSON_stringify t) ->
  bearer cfg (access t) ->
  requestInterceptor cfg w = Some (Normal sent, w') ->
  bearer sent (access t).
Proof.
  intros Hstore Hcfg. rewrite requestInterceptor_run. unfold loaded.
  destruct (hd false (faults w)).
  - cbn [truthy_item]. intros [= <- _]. exact Hcfg.
  - rewrite Hstore, truthy_item_stringify. cbn [from_option id].
    rewrite JSON_parse_stringify. intros [= <- _].
    apply bearer_set_Authorization.
Qed.

(** C9, as the code has it.  Saving a pair never signals an error.  When
    the platform accepts the write the pair replaces whatever was stored,
    and saving it again changes nothing; when the platform rejects the
    write the failure is logged, the save still completes normally and the
    store is as it was. *)
Theorem save_overwrites_or_logs (pair : AuthTokens) (w : World) :
  exists w1,
    secureStorage_setItem TOKEN_KEY (JSON_stringify pair) w = Some (Normal tt, w1) /\
    (hd false (faults w) = false ->
     backing_store w1 = <[TOKEN_KEY := JSON_stringify pair]> (backing_store w) /\
     backing_store w1 !! TOKEN_KEY = Some (JSON_stringify pair) /\
     forall w2,
       hd false (faults w1) = false ->
       secureStorage_setItem TOKEN_KEY (JSON_stringify pair) w1 = Some (Normal tt, w2) ->
       backing_store w2 = backing_store w1) /\
    (hd false (faults w) = true ->
     backing_store w1 = backing_store w /\
     trace w1 = trace w ++ [EvConsoleLog "设置存储项失败:"]).
Proof.
  eexists. split; [apply secureStorage_setItem_run|].
  split; intros Hfault; rewrite Hfault.
  - rewrite backing_store_log, backing_store_write.
    split; [reflexivity|]. split; [apply lookup_insert_eq|].
    intros w2 Hfault2. rewrite secureStorage_setItem_run, Hfault2.
    intros [= <-].
    rewrite !backing_store_log, !backing_store_write.
    apply insert_insert_eq.
  - split; reflexivity.
Qed.


(** C2.  For a request already marked as retried, the rejection handler
    rejects a 401 failure with that same failure and touches nothing: no
    load, no refresh call, no use of the client.  Sent through the client,
    such a request is dispatched once; a 401 answer comes back as the
    failure, with no refresh call made. *)
Theorem retried_request_is_not_refreshed
    (resend : RequestConfig -> Async Response) (error : AxiosError)
    (originalRequest : RequestConfig) (w : World) :
  config error = Some originalRequest ->
  _retry originalRequest = true ->
  status_is error 401 = true ->
  responseInterceptor resend error w = Some (Throw (ErrAxios error), w) /\
  forall n r msg w0,
    hd unreachable (api_script w0) = NetRejected (Some r) msg ->
    status r = 401 ->
    exists sent w',
      apiClient (S n) originalRequest w0 =
        Some (Throw (ErrAxios (mkAxiosError (Some sent) (Some r) true msg)), w') /\
      dispatched (trace w') = dispatched (trace w0) ++ [sent] /\
      refresh_calls (trace w') = refresh_calls (trace w0) /\
      backing_store w' = backing_store w0.
Proof.
  intros Hcfg Hretry _. split.
  - apply responseInterceptor_retried with originalRequest; assumption.
  - intros n r msg w0 Hreply _.
    destruct (apiClient_retried n originalRequest w0 Hretry)
      as (sent & w1 & w' & _ & Hrun & Hs & Hd & Hc & _).
    rewrite Hreply in Hrun. eauto 10.
Qed.

(** C10.  When a request fails with 401 while nothing is stored under the
    token key, the rejection handler makes no refresh call and no retry,
    leaves the store as it was, and rejects with the 401 failure it was
    given, whose request descriptor is now marked as retried. *)
Theorem unauthorized_without_tokens
    (resend : RequestConfig -> Async Response) (error : AxiosError)
    (originalRequest : RequestConfig) (w : World) :
  config error = Some originalRequest ->
  status_is error 401 = true ->
  backing_store w !! TOKEN_KEY = None ->
  exists w',
    responseInterceptor resend error w =
      Some (Throw (ErrAxios (set_config error (set_retry originalRequest))), w') /\
    response (set_config error (set_retry originalRequest)) = response error /\
    backing_store w' = backing_store w /\
    refresh_calls (trace w') = refresh_calls (trace w) /\
    dispatched (trace w') = dispatched (trace w).
Proof.
  intros Hcfg H401 Hstore.
  destruct (_retry originalRequest) eqn:Hretry.
  - exists w. rewrite (set_retry_retried _ Hretry), (set_config_same _ _ Hcfg).
    split; [|auto].
    apply responseInterceptor_retried with originalRequest; assumption.
  - exists (after_load w). split.
    + apply responseInterceptor_absent; try assumption.
      rewrite (loaded_absent _ Hstore). reflexivity.
    + split; [reflexivity|]. destruct (quiet_step_after_load w) as (? & _ & _ & ? & ? & _).
      auto.
Qed.

(** C1, as the code has it.  When a request not yet retried fails with 401
    and the refresh call fails, the rejection handler calls the store's
    delete for the token key, so that the pair is gone whenever the
    platform accepts the delete, makes no retry, and rejects with the
    failure of the refresh call. *)
Theorem refresh_failure_clears_and_rejects
    (resend : RequestConfig -> Async Response) (error : AxiosError)
    (originalRequest : RequestConfig) (w : World)
    (raw : string) (parsedTokens : AuthTokens) (refreshError : AxiosError) :
  config error = Some originalRequest ->
  status_is error 401 = true ->
  _retry originalRequest = false ->
  hd false (faults w) = false ->
  backing_store w !! TOKEN_KEY = Some raw ->
  raw <> "" ->
  JSON_parse raw = Some parsedTokens ->
  hd refresh_unreachable (refresh_script w) = RefreshRejected refreshError ->
  exists w',
    responseInterceptor resend error w = Some (Throw (ErrAxios refreshError), w') /\
    refresh_calls (trace w') = refresh_calls (trace w) ++ [refresh parsedTokens] /\
    dispatched (trace w') = dispatched (trace w) /\
    (hd false (tail (faults w)) = false ->
     backing_store w' !! TOKEN_KEY = None /\
     trace w' = trace w ++ [EvRefreshCall (refresh parsedTokens); EvDeleted TOKEN_KEY]).
Proof.
  intros Hcfg H401 Hretry Hfault Hstore Hraw Hparse Hreply.
  eexists. split.
  { eapply responseInterceptor_refresh_rejected; eauto using loaded_present. }
  unfold after_delete, after_refresh_call, after_load. rewrite Hfault.
  world_simpl.
  destruct (hd false (tail (faults w))); world_simpl;
    rewrite !dispatched_snoc, !refresh_calls_snoc, ?app_nil_r;
    (split; [reflexivity|]); (split; [reflexivity|]); [discriminate|].
  intros _. rewrite backing_store_log, backing_store_write.
  split; [apply lookup_delete_eq|]. rewrite <- app_assoc. reflexivity.
Qed.

(** C3, as the code has it.  When the refresh call succeeds, the rejection
    handler builds the new pair from the returned access token and the
    refresh token it loaded, then saves it, then retries.  When the
    platform accepts the write, the store holds the new pair when the
    retry starts, the request is dispatched exactly once more, after the
    write, and that request carries the new access token as its bearer
    credential. *)
Theorem refresh_success_retries_with_new_token
    (n : nat) (error : AxiosError) (originalRequest : RequestConfig) (w : World)
    (raw : string) (parsedTokens : AuthTokens) (newAccess : string) :
  config error = Some originalRequest ->
  status_is error 401 = true ->
  _retry originalRequest = false ->
  hd false (faults w) = false ->
  backing_store w !! TOKEN_KEY = Some raw ->
  raw <> "" ->
  JSON_parse raw = Some parsedTokens ->
  hd refresh_unreachable (refresh_script w) = RefreshResolved newAccess ->
  hd false (tail (faults w)) = false ->
  let newTokens := mkAuthTokens newAccess (refresh parsedTokens) in
  exists w1 sent w',
    responseInterceptor (apiClient (S n)) error w =
      apiClient (S n) (set_Authorization (set_retry originalRequest) newAccess) w1 /\
    backing_store w1 !! TOKEN_KEY = Some (JSON_stringify newTokens) /\
    trace w1 =
      trace w ++ [EvRefreshCall (refresh parsedTokens);
                  EvStored TOKEN_KEY (JSON_stringify newTokens)] /\
    responseInterceptor (apiClient (S n)) error w =
      Some (match hd unreachable (api_script w) with
            | NetResolved r => Normal r
            | NetRejected r msg =>
                Throw (ErrAxios (mkAxiosError (Some sent) r true msg))
            end, w') /\
    trace w1 `prefix_of` trace w' /\
    dispatched (trace w') = dispatched (trace w) ++ [sent] /\
    refresh_calls (trace w') = refresh_calls (trace w) ++ [refresh parsedTokens] /\
    _retry sent = true /\
    bearer sent newAccess /\
    backing_store w' !! TOKEN_KEY = Some (JSON_stringify newTokens).
Proof.
  intros Hcfg H401 Hretry Hfault Hstore Hraw Hparse Hreply Hwrite newTokens.
  set (cfgR := set_Authorization (set_retry originalRequest) newAccess).
  set (w1 := after_save (JSON_stringify newTokens)
               (after_refresh_call (refresh parsedTokens) (after_load w))).
  assert (Hstep : responseInterceptor (apiClient (S n)) error w =
                  apiClient (S n) cfgR w1).
  { eapply responseInterceptor_refresh_resolved; eauto using loaded_present. }
  assert (Hw1 : w1 =
    log_event (EvStored TOKEN_KEY (JSON_stringify newTokens))
      (write_backing (<[TOKEN_KEY := JSON_stringify newTokens]> (backing_store w))
         (after_fault (after_refresh_call (refresh parsedTokens) (after_fault w))))).
  { unfold w1, after_save, after_refresh_call, after_load. rewrite Hfault.
    world_simpl. rewrite Hwrite. reflexivity. }
  assert (Hstore1 : backing_store w1 !! TOKEN_KEY = Some (JSON_stringify newTokens)).
  { rewrite Hw1, backing_store_log, backing_store_write. apply lookup_insert_eq. }
  assert (Htrace1 : trace w1 =
            trace w ++ [EvRefreshCall (refresh parsedTokens);
                        EvStored TOKEN_KEY (JSON_stringify newTokens)]).
  { rewrite Hw1. unfold after_refresh_call. world_simpl.
    rewrite <- app_assoc. reflexivity. }
  assert (Hapi1 : api_script w1 = api_script w).
  { rewrite Hw1. reflexivity. }
  destruct (apiClient_retried n cfgR w1 eq_refl)
    as (sent & w2 & w' & Hreq & Hrun & Hs & Hd & Hc & Hp).
  exists w1, sent, w'.
  split; [exact Hstep|]. split; [exact Hstore1|]. split; [exact Htrace1|].
  split; [rewrite Hstep, Hrun, Hapi1; reflexivity|].
  split; [exact Hp|].
  split.
  { rewrite Hd, Htrace1, dispatched_app. cbn. rewrite app_nil_r. reflexivity. }
  split.
  { rewrite Hc, Htrace1, refresh_calls_app. reflexivity. }
  split.
  { destruct (requestInterceptor_total cfgR w1) as (c & w3 & Hreq' & _ & Hr).
    rewrite Hreq in Hreq'. injection Hreq' as <- _. exact Hr. }
  split.
  { change newAccess with (access newTokens).
    eapply requestInterceptor_keeps_bearer; [exact Hstore1| |exact Hreq].
    apply bearer_set_Authorization. }
  rewrite Hs. exact Hstore1.
Qed.

(** The rejection handler always completes, provided the client does on
    retried requests. *)
Lemma responseInterceptor_total resend error w :
  (forall cfg w0, _retry cfg = true -> is_Some (resend cfg w0)) ->
  is_Some (responseInterceptor resend error w).
Proof.
  intros Hresend. unfold responseInterceptor.
  destruct (config error) as [cfg|]; [|eexists; reflexivity].
  destruct (status_is error 401 && negb (_retry cfg)); [|eexists; reflexivity].
  unfold mbind, Async_bind, try_catch, parse_tokens.
  rewrite getItem_loaded.
  destruct (truthy_item (loaded w)); [|eexists; reflexivity].
  destruct (JSON_parse _) as [parsed|].
  - cbv [mret Async_ret]. rewrite axios_post_refresh_run.
    destruct (hd refresh_unreachable _).
    + rewrite secureStorage_setItem_run. apply Hresend. reflexivity.
    + rewrite secureStorage_deleteItem_run. eexists; reflexivity.
  - unfold reject at 1. rewrite secureStorage_deleteItem_run. eexists; reflexivity.
Qed.

(** Two units of fuel are enough for every request in every world: the
    client always completes. *)
Lemma apiClient_terminates cfg w : is_Some (apiClient 2 cfg w).
Proof.
  destruct (requestInterceptor_total cfg w) as (sent & w1 & Hreq & _).
  generalize 0%nat. intros n.
  cbn [apiClient]. unfold mbind, Async_bind, try_catch at 1.
  rewrite Hreq, dispatch_run.
  destruct (hd unreachable (api_script w1)); [eexists; reflexivity|].
  apply responseInterceptor_total. intros cfg' w0 Hretry.
  destruct (apiClient_retried n cfg' w0 Hretry) as (? & ? & ? & _ & Hrun & _).
  change (is_Some (apiClient (S n) cfg' w0)).
  rewrite Hrun. eexists; reflexivity.
Qed.
End PipelineProperties.


(** * The properties on a concrete session *)

Section Scenarios.
Import Api ErrorHandling.

(** C1, as stated, fails: the refresh call fails for want of a connection;
    the caller gets that failure, which is not the 401 failure and which
    the classifier files under network, not authentication. *)
Lemma refresh_failure_rejects_with_refresh_error :
  status_is error_401 401 = true /\
  (exists w',
     @responseInterceptor TokenJSON (@apiClient TokenJSON 1) error_401
       (device [] [] [RefreshRejected refresh_down]) =
     Some (Throw (ErrAxios refresh_down), w')) /\
  ErrAxios refresh_down <> ErrAxios error_401 /\
  ErrAxios refresh_down <> ErrAxios (set_config error_401 (set_retry sent_me)) /\
  parseLoginError (handleApiError refresh_down) =
    Normal (mkLoginError network "网络连接失败，请检查网络设置后重试"
              (handleApiError refresh_down) true) /\
  parseLoginError (handleApiError error_401) =
    Normal (mkLoginError authentication "用户名或密码错误，请重新输入"
              (handleApiError error_401) false).
Proof.
  split; [reflexivity|]. split; [eexists; vm_compute; reflexivity|].
  repeat split; discriminate.
Qed.

Lemma refresh_failure_clears_and_rejects_witness :
  exists w',
    @responseInterceptor TokenJSON (@apiClient TokenJSON 1) error_401
      (device [] [] [RefreshRejected refresh_down]) =
    Some (Throw (ErrAxios refresh_down), w') /\
    backing_store w' !! TOKEN_KEY = None /\
    trace w' = [EvRefreshCall "refresh-1"; EvDeleted TOKEN_KEY].
Proof.
  destruct (@refresh_failure_clears_and_rejects TokenJSON
              (@apiClient TokenJSON 1) error_401 sent_me
              (device [] [] [RefreshRejected refresh_down])
              (tokens_stringify old_pair) old_pair refresh_down
              eq_refl eq_refl eq_refl eq_refl eq_refl
              (tokens_stringify_nonempty old_pair) eq_refl eq_refl)
    as (w' & Hrun & _ & _ & Hclear).
  exists w'. split; [exact Hrun|]. exact (Hclear eq_refl).
Defined.

(** C3, as stated, fails: the platform rejects the write of the refreshed
    pair; the save completes all the same, the store keeps the old pair,
    and the retried request carries the old access token. *)
Lemma rejected_write_retries_with_old_token :
  exists sent w',
    @responseInterceptor TokenJSON (@apiClient TokenJSON 1) error_401
      (device [false; true] [NetResolved profile] [RefreshResolved "new-access"]) =
    Some (Normal profile, w') /\
    refresh_calls (trace w') = ["refresh-1"] /\
    dispatched (trace w') = [sent] /\
    headers sent = Some {["Authorization" := "Bearer old-access"]} /\
    backing_store w' !! TOKEN_KEY = Some (tokens_stringify old_pair) /\
    tokens_stringify old_pair <>
      tokens_stringify (mkAuthTokens "new-access" (refresh old_pair)).
Proof.
  do 2 eexists.
  split; [vm_compute; reflexivity|].
  split; [vm_compute; reflexivity|].
  split; [vm_compute; reflexivity|].
  split; [vm_compute; reflexivity|].
  split; [vm_compute; reflexivity|].
  discriminate.
Qed.

Lemma refresh_success_retries_with_new_token_witness :
  exists sent w',
    @responseInterceptor TokenJSON (@apiClient TokenJSON 1) error_401
      (device [] [NetResolved profile] [RefreshResolved "new-access"]) =
    Some (Normal profile, w') /\
    dispatched (trace w') = [sent] /\
    bearer sent "new-access" /\
    backing_store w' !! TOKEN_KEY =
      Some (tokens_stringify (mkAuthTokens "new-access" "refresh-1")).
Proof.
  destruct (@refresh_success_retries_with_new_token TokenJSON 0 error_401 sent_me
              (device [] [NetResolved profile] [RefreshResolved "new-access"])
              (tokens_stringify old_pair) old_pair "new-access"
              eq_refl eq_refl eq_refl eq_refl eq_refl
              (tokens_stringify_nonempty old_pair) eq_refl eq_refl eq_refl)
    as (w1 & sent & w' & _ & _ & _ & Hrun & _ & Hd & _ & _ & Hb & Hs).
  exists sent, w'. split; [exact Hrun|]. split; [exact Hd|]. split; [exact Hb|].
  exact Hs.
Defined.

Lemma retried_request_is_not_refreshed_witness :
  @responseInterceptor TokenJSON (@apiClient TokenJSON 1)
    (set_config error_401 (set_retry sent_me))
    (device [] [] [RefreshResolved "new-access"]) =
  Some (Throw (ErrAxios (set_config error_401 (set_retry sent_me))),
        device [] [] [RefreshResolved "new-access"]).
Proof.
  exact (proj1
    (@retried_request_is_not_refreshed TokenJSON (@apiClient TokenJSON 1)
       (set_config error_401 (set_retry sent_me)) (set_retry sent_me)
       (device [] [] [RefreshResolved "new-access"])
       eq_refl eq_refl eq_refl)).
Defined.

Lemma unauthorized_without_tokens_witness :
  exists w',
    @responseInterceptor TokenJSON (@apiClient TokenJSON 1) error_401 signed_out =
    Some (Throw (ErrAxios (set_config error_401 (set_retry sent_me))), w') /\
    backing_store w' = backing_store signed_out /\
    refresh_calls (trace w') = [].
Proof.
  destruct (@unauthorized_without_tokens TokenJSON (@apiClient TokenJSON 1)
              error_401 sent_me signed_out eq_refl eq_refl eq_refl)
    as (w' & Hrun & _ & Hs & Hc & _).
  exists w'. split; [exact Hrun|]. split; [exact Hs|exact Hc].
Defined.



(** C9, as stated, fails: the platform rejects the write, and the save
    completes normally, with a line on the console and nothing stored. *)
Lemma rejected_save_completes_silently :
  exists w',
    secureStorage_setItem TOKEN_KEY (tokens_stringify old_pair)
      (mkWorld native ∅ ∅ [true] [] [] []) = Some (Normal tt, w') /\
    trace w' = [EvConsoleLog "设置存储项失败:"] /\
    backing_store w' !! TOKEN_KEY = None.
Proof.
  eexists. split; [vm_compute; reflexivity|]. split; reflexivity.
Qed.

Lemma save_overwrites_or_logs_witness :
  exists w1,
    secureStorage_setItem TOKEN_KEY
      (tokens_stringify (mkAuthTokens "new-access" "refresh-1"))
      (device [] [] []) = Some (Normal tt, w1) /\
    backing_store w1 !! TOKEN_KEY =
      Some (tokens_stringify (mkAuthTokens "new-access" "refresh-1")).
Proof.
  destruct (@save_overwrites_or_logs TokenJSON
              (mkAuthTokens "new-access" "refresh-1") (device [] [] []))
    as (w1 & Hrun & Hok & _).
  exists w1. split; [exact Hrun|]. exact (proj1 (proj2 (Hok eq_refl))).
Defined.

End Scenarios.

(** * Further properties of the error classifier and of the login form *)

Section ClassifierFurther.
Import ErrorHandling ErrorHandlingRest.

Lemma parseLoginError_cases error r :
  parseLoginError error = Normal r -> In r (classifications error).
Proof.
  unfold parseLoginError, classifications.
  destruct (js_get error "status") as [st|]; [|discriminate].
  cbn [mbind Completion_bind].
  destruct (if truthy st then Normal false else _) as [[|]|];
    cbn [mbind Completion_bind]; [intros [= <-]; cbn; tauto | | discriminate].
  repeat match goal with
         | |- context [is_number st ?n] => destruct (is_number st n)
         end; cbn [orb]; try (intros [= <-]; cbn; tauto).
  destruct (js_get error "message") as [msg|]; [|discriminate].
  cbn [mbind Completion_bind].
  destruct (js_includes _ "用户名") as [[|]|]; cbn [mbind Completion_bind];
    [intros [= <-]; cbn; tauto | | discriminate].
  destruct (js_includes _ "密码") as [[|]|]; cbn [mbind Completion_bind];
    [intros [= <-]; cbn; tauto | | discriminate].
  destruct (js_includes _ "超时") as [[|]|]; cbn [mbind Completion_bind];
    [intros [= <-]; cbn; tauto | | discriminate].
  destruct (js_includes _ "timeout") as [[|]|]; cbn [mbind Completion_bind];
    [intros [= <-]; cbn; tauto | intros [= <-]; cbn; tauto | discriminate].
Qed.

(** X1.  Whatever the input, a classified error is retryable exactly when
    its kind is network, server or unknown: validation and authentication
    errors are never offered a retry. *)
Theorem retryable_by_kind (error : JsValue) (r : LoginError) :
  parseLoginError error = Normal r ->
  retryable r =
    match type r with
    | validation | authentication => false
    | network | server | unknown => true
    end.
Proof.
  intros Hr. apply parseLoginError_cases in Hr. cbn in Hr.
  repeat (destruct Hr as [<- | Hr]; [reflexivity|]). contradiction.
Qed.

Lemma retryable_by_kind_witness :
  retryable (mkLoginError authentication "用户名或密码错误，请重新输入"
               (JsObject [("status", JsNumber 401)]) false) = false.
Proof.
  exact (retryable_by_kind (JsObject [("status", JsNumber 401)]) _ eq_refl).
Defined.

(** X2.  The message of a classified error is always one of the
    classifier's own ten sentences, never text taken from the input, and
    the cause is always the input itself. *)
Theorem message_is_canned (error : JsValue) (r : LoginError) :
  parseLoginError error = Normal r ->
  In (message r) (List.map message (classifications JsNull)) /\
  originalError r = error.
Proof.
  intros Hr. apply parseLoginError_cases in Hr. cbn in Hr.
  repeat (destruct Hr as [<- | Hr]; [split; [cbn; tauto | reflexivity]|]).
  contradiction.
Qed.

Lemma message_is_canned_witness :
  In "登录失败，请稍后重试" (List.map message (classifications JsNull)) /\
  originalError (mkLoginError unknown "登录失败，请稍后重试"
                   (JsObject [("message", JsString "<html>502</html>")]) true) =
  JsObject [("message", JsString "<html>502</html>")].
Proof.
  exact (message_is_canned (JsObject [("message", JsString "<html>502</html>")]) _
           eq_refl).
Defined.

End ClassifierFurther.

Section RetryButtonProperties.
Import ErrorHandling ErrorHandlingRest.

(** X27.  The retry button is shown for retryable errors only, so it is
    never labelled with the text kept for authentication errors: for every
    classified error that is retryable the label is "重新连接" for a
    network error and "重试" otherwise, and the error is never displayed as
    information. *)
Theorem retry_button_never_asks_to_reenter (error : JsValue) (r : LoginError) :
  parseLoginError error = Normal r ->
  retryable r = true ->
  getRetryButtonText (type r) =
    (if decide (type r = network) then "重新连接" else "重试") /\
  getRetryButtonText (type r) <> "重新输入" /\
  getErrorMessageType (type r) <> info.
Proof.
  intros Hr. apply parseLoginError_cases in Hr. cbn in Hr.
  repeat (destruct Hr as [<- | Hr];
          [cbn; intros Hretry; try discriminate Hretry;
           repeat split; discriminate|]).
  contradiction.
Qed.

Lemma retry_button_never_asks_to_reenter_witness :
  getRetryButtonText
    (type (mkLoginError server "服务器临时不可用，请稍后重试"
             (JsObject [("status", JsNumber 502)]) true)) <> "重新输入".
Proof.
  exact (proj1 (proj2
    (retry_button_never_asks_to_reenter (JsObject [("status", JsNumber 502)]) _
       eq_refl eq_refl))).
Defined.

End RetryButtonProperties.

Section LoginFormProperties.
Import ErrorHandlingRest LoginScreen.

Lemma trimStart_app_ws ws s :
  forallb isWhiteSpace ws = true -> trimStart (ws ++ s) = trimStart s.
Proof.
  induction ws as [|c ws IH]; [reflexivity|]. cbn [forallb app trimStart].
  intros [-> Hws]%andb_true_iff. auto.
Qed.

Lemma trimStart_ws ws : forallb isWhiteSpace ws = true -> trimStart ws = [].
Proof.
  intros Hws. rewrite <- (app_nil_r ws). rewrite trimStart_app_ws; auto.
Qed.

Lemma forallb_rev_ws ws :
  forallb isWhiteSpace ws = true -> forallb isWhiteSpace (rev ws) = true.
Proof.
  rewrite !forallb_forall. intros Hws c Hc. apply Hws, in_rev, Hc.
Qed.

Lemma trimEnd_app_ws s ws :
  forallb isWhiteSpace ws = true -> trimEnd (s ++ ws) = trimEnd s.
Proof.
  intros Hws. unfold trimEnd. rewrite rev_app_distr, trimStart_app_ws; auto.
  apply forallb_rev_ws, Hws.
Qed.

Lemma trim_app_ws s ws :
  forallb isWhiteSpace ws = true -> trim (s ++ ws) = trim s.
Proof.
  intros Hws. unfold trim. induction s as [|c s IH].
  - cbn [app]. rewrite trimStart_ws by exact Hws. reflexivity.
  - cbn [app trimStart]. destruct (isWhiteSpace c); [exact IH|].
    change (c :: s ++ ws) with ((c :: s) ++ ws). apply trimEnd_app_ws, Hws.
Qed.

(** X3.  The verdict of [validateLoginInput]: the input is valid exactly
    when no error is reported, which is exactly when the trimmed user name
    has 3 to 30 code units, the password is not blank, and the password as
    typed has 6 to 128 code units. *)
Theorem validateLoginInput_valid_iff (username password : JsText) :
  (isValid (validateLoginInput username password) = true <->
   errors (validateLoginInput username password) = []) /\
  (isValid (validateLoginInput username password) = true <->
   (3 <= List.length (trim username) <= 30)%nat /\
   trim password <> [] /\
   (6 <= List.length password <= 128)%nat).
Proof.
  unfold validateLoginInput. cbn [isValid errors].
  destruct (trim password) as [|c tp] eqn:Hp; cbn [List.length app Nat.eqb];
    destruct (Nat.eqb_spec (List.length (trim username)) 0);
    destruct (Nat.ltb_spec (List.length (trim username)) 3);
    destruct (Nat.ltb_spec 30 (List.length (trim username)));
    destruct (Nat.ltb_spec (List.length password) 6);
    destruct (Nat.ltb_spec 128 (List.length password));
    cbn; (split; split; [intros; try discriminate; try reflexivity
                        | intros; try discriminate; try reflexivity
                        | intros; try discriminate
                        | intros (? & ? & ?); try reflexivity; try congruence; try lia]);
    try (repeat split; (lia || discriminate)).
Qed.

(** X4.  White space around the user name does not change the outcome of
    the validation: the user name is judged as trimmed. *)
Theorem validateLoginInput_ignores_padding (before after username password : JsText) :
  forallb isWhiteSpace before = true ->
  forallb isWhiteSpace after = true ->
  validateLoginInput (before ++ username ++ after) password =
  validateLoginInput username password.
Proof.
  intros Hb Ha. unfold validateLoginInput.
  assert (Htrim : trim (before ++ username ++ after) = trim username).
  { unfold trim at 1. rewrite trimStart_app_ws by exact Hb.
    apply trim_app_ws, Ha. }
  rewrite Htrim. reflexivity.
Qed.

Lemma validateLoginInput_ignores_padding_witness :
  validateLoginInput ([32; 9] ++ [97; 98; 99] ++ [10])%N [49; 50; 51; 52; 53; 54]%N =
  validateLoginInput [97; 98; 99]%N [49; 50; 51; 52; 53; 54]%N.
Proof.
  exact (validateLoginInput_ignores_padding [32; 9]%N [10]%N [97; 98; 99]%N
           [49; 50; 51; 52; 53; 54]%N eq_refl eq_refl).
Defined.

(** X6.  After a failed validation [handleLogin] focuses the user name
    input whenever the user name is at fault, and the password input
    exactly when only the password is. *)
Theorem focus_follows_the_field_at_fault (username password : JsText) :
  focus_on_errors (errors (validateLoginInput username password)) =
  if negb ((3 <=? List.length (trim username)) && (List.length (trim username) <=? 30))%nat
  then Some usernameInputRef
  else if negb ((0 <? List.length (trim password))
                && (6 <=? List.length password)
                && (List.length password <=? 128))%nat
  then Some passwordInputRef
  else None.
Proof.
  unfold validateLoginInput. cbn [errors].
  destruct (Nat.eqb_spec (List.length (trim username)) 0);
    destruct (Nat.ltb_spec (List.length (trim username)) 3);
    destruct (Nat.leb_spec 3 (List.length (trim username)));
    destruct (Nat.ltb_spec 30 (List.length (trim username)));
    destruct (Nat.leb_spec (List.length (trim username)) 30);
    try lia;
    destruct (Nat.eqb_spec (List.length (trim password)) 0);
    destruct (Nat.ltb_spec 0 (List.length (trim password)));
    destruct (Nat.ltb_spec (List.length password) 6);
    destruct (Nat.leb_spec 6 (List.length password));
    destruct (Nat.ltb_spec 128 (List.length password));
    destruct (Nat.leb_spec (List.length password) 128);
    try lia; reflexivity.
Qed.

End LoginFormProperties.

Section FormatProperties.
Import ErrorHandlingRest.

Lemma append_nil_l t : "" +:+ t = t.
Proof. reflexivity. Qed.

Lemma prefix_refl s : String.prefix s s = true.
Proof.
  induction s as [|c s IH]; [reflexivity|]. cbn [String.prefix].
  destruct (ascii_dec c c); [exact IH | congruence].
Qed.

Lemma prefix_app e s t : String.prefix e s = true -> String.prefix e (s +:+ t) = true.
Proof.
  revert s. induction e as [|c e IH]; intros s;
    [destruct (s +:+ t); reflexivity|].
  destruct s as [|d s]; [discriminate|]. rewrite append_cons. cbn [String.prefix].
  destruct (ascii_dec c d); [apply IH | discriminate].
Qed.

Lemma String_includes_refl s : String_includes s s = true.
Proof. destruct s; cbn [String_includes]; rewrite prefix_refl; reflexivity. Qed.

Lemma String_includes_app_l s t e :
  String_includes s e = true -> String_includes (s +:+ t) e = true.
Proof.
  induction s as [|c s IH].
  - cbn [String_includes]. rewrite orb_false_r. intros He.
    destruct e; [|discriminate]. destruct t; reflexivity.
  - rewrite append_cons. cbn [String_includes].
    intros [He | He]%orb_true_iff; apply orb_true_iff.
    + left. change (String c (s +:+ t)) with (String c s +:+ t).
      apply prefix_app, He.
    + right. apply IH, He.
Qed.

Lemma String_includes_app_r s t e :
  String_includes t e = true -> String_includes (s +:+ t) e = true.
Proof.
  intros He. induction s as [|c s IH]; [exact He|].
  rewrite append_cons. cbn [String_includes]. rewrite IH. apply orb_true_r.
Qed.

Lemma String_includes_concat sep l s e :
  In s l -> String_includes s e = true ->
  String_includes (String.concat sep l) e = true.
Proof.
  intros Hin He. induction l as [|x l IH]; [contradiction|].
  destruct l as [|y l].
  - destruct Hin as [<- | []]. exact He.
  - change (String.concat sep (x :: y :: l))
      with (x +:+ sep +:+ String.concat sep (y :: l)).
    destruct Hin as [<- | Hin].
    + apply String_includes_app_l, He.
    + do 2 apply String_includes_app_r. apply IH, Hin.
Qed.

Lemma imap_includes (f : nat -> string -> string) l e :
  (forall i, String_includes (f i e) e = true) ->
  In e l -> exists s, In s (imap f l) /\ String_includes s e = true.
Proof.
  revert f. induction l as [|x l IH]; intros f Hf; [contradiction|].
  intros [<- | Hin].
  - exists (f 0%nat x). split; [left; reflexivity | apply Hf].
  - destruct (IH (f ∘ S) (fun i => Hf (S i)) Hin) as (s & Hs & He).
    exists s. split; [right; exact Hs | exact He].
Qed.

(** X5.  No error is lost when the errors are formatted for display:
    every error text occurs in the text [formatValidationErrors] builds,
    be there one error or several. *)
Theorem formatValidationErrors_shows_every_error (errors : list string) (e : string) :
  In e errors -> String_includes (formatValidationErrors errors) e = true.
Proof.
  intros Hin. unfold formatValidationErrors.
  destruct errors as [|x [|y rest]].
  - contradiction.
  - destruct Hin as [<- | []]. apply String_includes_refl.
  - destruct (imap_includes
                (fun index e0 => pretty (index + 1)%nat +:+ ". " +:+ e0)
                (x :: y :: rest) e) as (s & Hs & He); [|exact Hin|].
    + intros i. do 2 apply String_includes_app_r. apply String_includes_refl.
    + eapply String_includes_concat; eauto.
Qed.

Lemma formatValidationErrors_shows_every_error_witness :
  String_includes (formatValidationErrors ["请输入用户名"; "密码至少需要6个字符"])
    "密码至少需要6个字符" = true.
Proof.
  exact (formatValidationErrors_shows_every_error
           ["请输入用户名"; "密码至少需要6个字符"] "密码至少需要6个字符"
           (or_intror (or_introl eq_refl))).
Defined.

(** The numbered list of the test suite. *)
Example formatValidationErrors_numbered :
  formatValidationErrors ["请输入用户名"; "密码至少需要6个字符"] =
  "1. 请输入用户名" +:+ newline +:+ "2. 密码至少需要6个字符".
Proof. vm_compute. reflexivity. Qed.

End FormatProperties.

(** * Properties of the API error objects *)

Section ApiErrorProperties.
Import ErrorHandling Api ApiCalls AuthSlice LoginScreen.

Lemma parseLoginError_by_table error code kind text again :
  js_get error "status" = Normal (JsNumber code) ->
  status_table code = Some (kind, text, again) ->
  parseLoginError error = Normal (mkLoginError kind text error again).
Proof.
  intros Hst. unfold status_table, parseLoginError. rewrite Hst.
  cbn [mbind Completion_bind truthy is_number].
  destruct (code =? 400) eqn:H400.
  { apply Z.eqb_eq in H400. subst. intros [= <- <- <-]. reflexivity. }
  destruct (code =? 401) eqn:H401.
  { apply Z.eqb_eq in H401. subst. intros [= <- <- <-]. reflexivity. }
  destruct (code =? 403) eqn:H403.
  { apply Z.eqb_eq in H403. subst. intros [= <- <- <-]. reflexivity. }
  destruct (code =? 429) eqn:H429.
  { apply Z.eqb_eq in H429. subst. intros [= <- <- <-]. reflexivity. }
  destruct ((code =? 500) || (code =? 502) || (code =? 503)) eqn:H5; [|discriminate].
  assert ((code =? 0) = false) as ->.
  { apply Z.eqb_neq. intros ->. discriminate H5. }
  intros [= <- <- <-]. reflexivity.
Qed.

(** X7.  A failure that carries a response is classified by the status of
    that response alone, whatever the body says: [handleApiError] keeps
    the status and the classifier's table decides. *)
Theorem response_failure_classified_by_status
    (e : AxiosError) (r : Response) (kind : ErrorType) (text : string) (again : bool) :
  response e = Some r ->
  status_table (status r) = Some (kind, text, again) ->
  parseLoginError (handleApiError e) =
    Normal (mkLoginError kind text (handleApiError e) again).
Proof.
  intros Hresp Htable. apply parseLoginError_by_table with (status r); [|exact Htable].
  unfold handleApiError. rewrite Hresp. reflexivity.
Qed.

Lemma response_failure_classified_by_status_witness :
  parseLoginError
    (handleApiError
       (mkAxiosError None
          (Some (mkResponse 429 (JsObject [("detail", JsString "用户名 throttled")])))
          true "Request failed with status code 429")) =
  Normal (mkLoginError server "登录尝试过于频繁，请稍后再试"
            (handleApiError
               (mkAxiosError None
                  (Some (mkResponse 429
                           (JsObject [("detail", JsString "用户名 throttled")])))
                  true "Request failed with status code 429"))
            true).
Proof.
  exact (response_failure_classified_by_status
           (mkAxiosError None
              (Some (mkResponse 429 (JsObject [("detail", JsString "用户名 throttled")])))
              true "Request failed with status code 429")
           _ server _ true eq_refl eq_refl).
Defined.

(** X8.  A request that left the client and got no response (connection
    refused, DNS failure, timeout) becomes the [NETWORK_ERROR] object,
    which the classifier files under network, retryable, whatever message
    axios gave. *)
Theorem no_response_is_network (e : AxiosError) :
  response e = None ->
  request e = true ->
  handleApiError e =
    JsObject [("message", JsString "网络连接失败，请检查网络设置");
              ("code", JsString "NETWORK_ERROR")] /\
  parseLoginError (handleApiError e) =
    Normal (mkLoginError network "网络连接失败，请检查网络设置后重试"
              (handleApiError e) true).
Proof.
  intros Hresp Hreq. unfold handleApiError. rewrite Hresp, Hreq. split; reflexivity.
Qed.

Lemma no_response_is_network_witness :
  parseLoginError
    (handleApiError (mkAxiosError None None true "timeout of 10000ms exceeded")) =
  Normal (mkLoginError network "网络连接失败，请检查网络设置后重试"
            (handleApiError (mkAxiosError None None true "timeout of 10000ms exceeded"))
            true).
Proof.
  exact (proj2 (no_response_is_network
                  (mkAxiosError None None true "timeout of 10000ms exceeded")
                  eq_refl eq_refl)).
Defined.



End ApiErrorProperties.

(** * Further properties of the credential store *)

Section StoreFurther.
Import Api ApiCalls.
Context `{JSON}.

Ltac world_norm :=
  cbn [trace faults api_script refresh_script Platform_OS localStorage
       SecureStore log_event after_fault set_faults set_api_script
       set_refresh_script write_backing set_store_of].

Lemma backing_store_after_fault w : backing_store (after_fault w) = backing_store w.
Proof. reflexivity. Qed.

Lemma after_fault_quiet w : faults w = [] -> after_fault w = w.
Proof. destruct w; cbn. intros ->. reflexivity. Qed.

Lemma after_load_quiet w : faults w = [] -> after_load w = w.
Proof.
  intros Hf. unfold after_load. rewrite Hf. cbn [hd]. apply after_fault_quiet, Hf.
Qed.

Lemma loaded_quiet w : faults w = [] -> loaded w = backing_store w !! TOKEN_KEY.
Proof. intros Hf. unfold loaded. rewrite Hf. reflexivity. Qed.

(** X10.  Clearing the store never signals an error.  When the platform
    accepts the delete the key is gone and every other key is as it was;
    clearing again, or clearing a store that does not hold the key, changes
    nothing.  When the platform rejects the delete the failure is logged
    and the store is as it was. *)
Theorem clear_is_idempotent (key : string) (w : World) :
  exists w1,
    secureStorage_deleteItem key w = Some (Normal tt, w1) /\
    (hd false (faults w) = false ->
     backing_store w1 = delete key (backing_store w) /\
     (backing_store w !! key = None -> backing_store w1 = backing_store w) /\
     forall w2,
       secureStorage_deleteItem key w1 = Some (Normal tt, w2) ->
       backing_store w2 = backing_store w1) /\
    (hd false (faults w) = true ->
     backing_store w1 = backing_store w /\
     trace w1 = trace w ++ [EvConsoleLog "删除存储项失败:"]).
Proof.
  eexists. split; [apply secureStorage_deleteItem_run|].
  split; intros Hfault; rewrite Hfault.
  - rewrite backing_store_log, backing_store_write.
    split; [reflexivity|]. split; [intros Hnone; apply delete_id, Hnone|].
    intros w2. rewrite secureStorage_deleteItem_run. intros [= <-].
    world_norm. destruct (hd false (tail (faults w))).
    + rewrite backing_store_log, backing_store_after_fault, backing_store_log,
        backing_store_write. reflexivity.
    + rewrite !backing_store_log, !backing_store_write. apply delete_delete_eq.
  - split; reflexivity.
Qed.

(** X11.  Round trip: a pair saved and then loaded, with the platform
    accepting both calls, comes back as the text whose parse is that pair,
    whatever was stored before; keys other than the token key are not
    touched. *)
Theorem save_then_load (pair : AuthTokens) (w : World) :
  hd false (faults w) = false ->
  hd false (tail (faults w)) = false ->
  exists w1 w2 raw,
    secureStorage_setItem TOKEN_KEY (JSON_stringify pair) w = Some (Normal tt, w1) /\
    secureStorage_getItem TOKEN_KEY w1 = Some (Normal (Some raw), w2) /\
    JSON_parse raw = Some pair /\
    forall key, key <> TOKEN_KEY -> backing_store w2 !! key = backing_store w !! key.
Proof.
  intros Hf1 Hf2. do 3 eexists.
  rewrite secureStorage_setItem_run, Hf1.
  split; [reflexivity|].
  rewrite secureStorage_getItem_run. world_norm. rewrite Hf2.
  rewrite backing_store_log, backing_store_write, lookup_insert_eq.
  split; [reflexivity|]. split; [apply JSON_parse_stringify|].
  intros key Hkey.
  change (backing_store (write_backing (<[TOKEN_KEY:=JSON_stringify pair]> (backing_store w))
                           (after_fault w)) !! key = backing_store w !! key).
  rewrite backing_store_write. apply lookup_insert_ne. congruence.
Qed.

Lemma authApi_hasValidToken_run w :
  authApi_hasValidToken w = Some (Normal (truthy_item (loaded w)), after_load w).
Proof.
  unfold authApi_hasValidToken, try_catch, mbind, Async_bind.
  rewrite getItem_loaded. reflexivity.
Qed.

(** X12.  [hasValidToken] only looks at the store: it never rejects, sends
    nothing, changes nothing in the store, and answers [true] exactly when
    the read succeeds and finds a non-empty text under the token key,
    whether or not that text is a usable pair. *)
Theorem hasValidToken_is_presence (w : World) :
  exists answer w1,
    authApi_hasValidToken w = Some (Normal answer, w1) /\
    backing_store w1 = backing_store w /\
    dispatched (trace w1) = dispatched (trace w) /\
    refresh_calls (trace w1) = refresh_calls (trace w) /\
    (answer = true <->
     hd false (faults w) = false /\
     exists raw, backing_store w !! TOKEN_KEY = Some raw /\ raw <> "").
Proof.
  exists (truthy_item (loaded w)), (after_load w).
  split; [apply authApi_hasValidToken_run|].
  destruct (quiet_step_after_load w) as (Hs & _ & _ & Hd & Hc & _).
  split; [exact Hs|]. split; [exact Hd|]. split; [exact Hc|].
  unfold loaded. destruct (hd false (faults w)).
  - split; [discriminate | intros [? _]; discriminate].
  - destruct (backing_store w !! TOKEN_KEY) as [raw|]; cbn [truthy_item].
    + rewrite negb_true_iff, String.eqb_neq. split.
      * intros Hraw. split; [reflexivity|]. exists raw. auto.
      * intros (_ & raw' & [= <-] & Hraw). exact Hraw.
    + split; [discriminate | intros (_ & raw & Hraw & _); discriminate].
Qed.

Lemma authApi_logout_run w :
  authApi_logout w =
  Some (Normal tt,
        let w0 := log_event (EvConsoleLog "authApi.logout called") w in
        if hd false (faults w)
        then log_event (EvConsoleLog "Token deleted successfully")
               (log_event (EvConsoleLog "删除存储项失败:") (after_fault w0))
        else log_event (EvConsoleLog "Token deleted successfully")
               (log_event (EvDeleted TOKEN_KEY)
                  (write_backing (delete TOKEN_KEY (backing_store w)) (after_fault w0)))).
Proof.
  unfold authApi_logout, try_catch, mbind, Async_bind, console_log, emit.
  rewrite secureStorage_deleteItem_run. world_norm.
  destruct (hd false (faults w)); reflexivity.
Qed.

(** X13.  Logging out never signals an error, and once the platform has
    accepted the delete, [hasValidToken] answers [false]. *)
Theorem logout_then_no_token (w : World) :
  exists w1,
    authApi_logout w = Some (Normal tt, w1) /\
    dispatched (trace w1) = dispatched (trace w) /\
    (hd false (faults w) = false ->
     backing_store w1 !! TOKEN_KEY = None /\
     exists w2, authApi_hasValidToken w1 = Some (Normal false, w2)).
Proof.
  eexists. split; [apply authApi_logout_run|]. cbv zeta.
  split.
  { destruct (hd false (faults w)); world_norm;
      rewrite !dispatched_snoc, !app_nil_r; reflexivity. }
  intros Hfault. rewrite Hfault.
  assert (Hgone : backing_store
            (log_event (EvConsoleLog "Token deleted successfully")
               (log_event (EvDeleted TOKEN_KEY)
                  (write_backing (delete TOKEN_KEY (backing_store w))
                     (after_fault
                        (log_event (EvConsoleLog "authApi.logout called") w)))))
            !! TOKEN_KEY = None).
  { rewrite !backing_store_log, backing_store_write. apply lookup_delete_eq. }
  split; [exact Hgone|].
  eexists. rewrite authApi_hasValidToken_run, (loaded_absent _ Hgone). reflexivity.
Qed.

End StoreFurther.

(** * Properties of the API functions *)

Section ApiFunctionProperties.
Import Api ApiCalls.
Context `{JSON}.

Ltac world_norm :=
  cbn [trace faults api_script refresh_script Platform_OS localStorage
       SecureStore log_event after_fault set_faults set_api_script
       set_refresh_script write_backing set_store_of].

Lemma apiClient_step n cfg w sent w1 :
  requestInterceptor cfg w = Some (Normal sent, w1) ->
  apiClient (S n) cfg w =
    match hd unreachable (api_script w) with
    | NetResolved r => Some (Normal r, after_dispatch sent w1)
    | NetRejected r msg =>
        responseInterceptor (apiClient n)
          (mkAxiosError (Some sent) r true msg) (after_dispatch sent w1)
    end.
Proof.
  intros Hreq.
  assert (Hscript : api_script w1 = api_script w).
  { destruct (requestInterceptor_total cfg w) as (s' & w' & Hreq' & Hq & _).
    rewrite Hreq in Hreq'. injection Hreq' as <- <-. apply Hq. }
  cbn [apiClient]. unfold mbind, Async_bind, try_catch at 1.
  rewrite Hreq, dispatch_run, Hscript. unfold after_dispatch. rewrite Hscript.
  destruct (hd unreachable (api_script w)); reflexivity.
Qed.

Lemma responseInterceptor_other resend error w :
  status_is error 401 = false ->
  responseInterceptor resend error w = Some (Throw (ErrAxios error), w).
Proof.
  intros Hst. unfold responseInterceptor. rewrite Hst.
  destruct (config error); reflexivity.
Qed.

Lemma apiClient_retried_fuel n m cfg w :
  _retry cfg = true -> apiClient (S n) cfg w = apiClient (S m) cfg w.
Proof.
  intros Hretry.
  destruct (requestInterceptor_total cfg w) as (sent & w1 & Hreq & _ & Hkeep).
  rewrite !(apiClient_step _ _ _ _ _ Hreq).
  destruct (hd unreachable (api_script w)); [reflexivity|].
  rewrite !(responseInterceptor_retried _ _ sent); first [reflexivity | congruence].
Qed.

Lemma responseInterceptor_ext f g error w :
  (forall cfg w0, _retry cfg = true -> f cfg w0 = g cfg w0) ->
  responseInterceptor f error w = responseInterceptor g error w.
Proof.
  intros Hext. unfold responseInterceptor.
  destruct (config error) as [cfg|]; [|reflexivity].
  destruct (status_is error 401 && negb (_retry cfg)); [|reflexivity].
  unfold mbind, Async_bind, try_catch, parse_tokens.
  rewrite getItem_loaded.
  destruct (truthy_item (loaded w)); [|reflexivity].
  destruct (JSON_parse _) as [parsed|];
    [|unfold reject; rewrite secureStorage_deleteItem_run; reflexivity].
  cbv [mret Async_ret]. rewrite axios_post_refresh_run.
  destruct (hd refresh_unreachable _);
    [|rewrite secureStorage_deleteItem_run; reflexivity].
  rewrite secureStorage_setItem_run. apply Hext. reflexivity.
Qed.

(** More fuel changes nothing: two units are all the client uses. *)
Lemma apiClient_fuel n cfg w : apiClient (S (S n)) cfg w = apiClient 2 cfg w.
Proof.
  destruct (requestInterceptor_total cfg w) as (sent & w1 & Hreq & _).
  rewrite !(apiClient_step _ _ _ _ _ Hreq).
  destruct (hd unreachable (api_script w)); [reflexivity|].
  apply responseInterceptor_ext. intros cfg' w0 Hretry.
  apply apiClient_retried_fuel, Hretry.
Qed.

Lemma after_dispatch_facts sent w :
  backing_store (after_dispatch sent w) = backing_store w /\
  dispatched (trace (after_dispatch sent w)) = dispatched (trace w) ++ [sent] /\
  refresh_calls (trace (after_dispatch sent w)) = refresh_calls (trace w) /\
  faults (after_dispatch sent w) = faults w /\
  refresh_script (after_dispatch sent w) = refresh_script w /\
  api_script (after_dispatch sent w) = tail (api_script w).
Proof.
  unfold after_dispatch. world_norm.
  rewrite dispatched_snoc, refresh_calls_snoc, app_nil_r. auto 10.
Qed.

(** X14.  A failure other than 401 bypasses the refresh path: an API
    function whose request is answered by a status other than 401, or not
    answered at all, rejects with the [ApiError] built from that very
    failure, after one dispatch, with no refresh call and the store
    untouched.  [getCurrentUser], [getImage], [getGroups] and [getGroup]
    are [api_call (apiClient 2 (get_request url))]. *)
Theorem other_failures_bypass_refresh
    (cfg : RequestConfig) (w : World) (r : option Response) (msg : string) :
  hd unreachable (api_script w) = NetRejected r msg ->
  (forall resp, r = Some resp -> status resp <> 401) ->
  exists sent w',
    api_call (apiClient 2 cfg) w =
      Some (Rejected (handleApiError (mkAxiosError (Some sent) r true msg)), w') /\
    backing_store w' = backing_store w /\
    dispatched (trace w') = dispatched (trace w) ++ [sent] /\
    refresh_calls (trace w') = refresh_calls (trace w).
Proof.
  intros Hreply Hstatus.
  destruct (requestInterceptor_total cfg w)
    as (sent & w1 & Hreq & (Hs & _ & _ & Hd & Hc & _) & _).
  exists sent, (after_dispatch sent w1).
  destruct (after_dispatch_facts sent w1) as (Hs' & Hd' & Hc' & _).
  split.
  - unfold api_call. rewrite (apiClient_step _ _ _ _ _ Hreq), Hreply.
    rewrite responseInterceptor_other; [reflexivity|].
    unfold status_is. cbn [response]. destruct r as [resp|]; [|reflexivity].
    apply Z.eqb_neq, Hstatus. reflexivity.
  - rewrite Hs', Hd', Hc'. split; [exact Hs|]. split; congruence.
Qed.

(** X15.  With a pair stored and the backend answering, a read through an
    API function resolves with the data and the status of the response,
    after a single dispatch that carries the access token of the stored
    pair as bearer credential, with no refresh call and the store as it
    was. *)
Theorem read_with_stored_pair
    (url : string) (w : World) (pair : AuthTokens) (r : Response) :
  hd false (faults w) = false ->
  backing_store w !! TOKEN_KEY = Some (JSON_stringify pair) ->
  hd unreachable (api_script w) = NetResolved r ->
  exists w',
    api_call (apiClient_get url) w = Some (Fulfilled (mkResponse (status r) (body r)), w') /\
    dispatched (trace w') =
      dispatched (trace w) ++ [set_Authorization (get_request url) (access pair)] /\
    refresh_calls (trace w') = refresh_calls (trace w) /\
    backing_store w' = backing_store w.
Proof.
  intros Hfault Hstore Hreply.
  assert (Hreq : requestInterceptor (get_request url) w =
                 Some (Normal (set_Authorization (get_request url) (access pair)),
                       after_load w)).
  { rewrite requestInterceptor_run, (loaded_present _ _ Hfault Hstore).
    rewrite truthy_item_stringify. cbn [from_option id].
    rewrite JSON_parse_stringify. reflexivity. }
  eexists. split.
  - unfold api_call, apiClient_get. rewrite (apiClient_step _ _ _ _ _ Hreq), Hreply.
    reflexivity.
  - destruct (after_dispatch_facts
                (set_Authorization (get_request url) (access pair)) (after_load w))
      as (Hs' & Hd' & Hc' & _).
    destruct (quiet_step_after_load w) as (Hs & _ & _ & Hd & Hc & _).
    rewrite Hs', Hd', Hc'. split; [congruence|]. split; congruence.
Qed.


Lemma requestInterceptor_present cfg w raw parsed :
  faults w = [] ->
  backing_store w !! TOKEN_KEY = Some raw ->
  raw <> "" ->
  JSON_parse raw = Some parsed ->
  requestInterceptor cfg w = Some (Normal (set_Authorization cfg (access parsed)), w).
Proof.
  intros Hf Hstore Hraw Hparse.
  rewrite requestInterceptor_run, (loaded_quiet _ Hf), (after_load_quiet _ Hf), Hstore.
  cbn [truthy_item from_option id]. apply String.eqb_neq in Hraw.
  rewrite Hraw, Hparse. reflexivity.
Qed.

Lemma requestInterceptor_absent cfg w :
  backing_store w !! TOKEN_KEY = None ->
  requestInterceptor cfg w = Some (Normal cfg, after_load w).
Proof.
  intros Hstore. rewrite requestInterceptor_run, (loaded_absent _ Hstore). reflexivity.
Qed.

(** The first leg of a request that is answered 401 while a pair is
    stored and the platform storage works: the request leaves with the old
    access token and the failure reaches the rejection handler. *)
Lemma apiClient_unauthorized n cfg w raw parsed r msg :
  faults w = [] ->
  backing_store w !! TOKEN_KEY = Some raw ->
  raw <> "" ->
  JSON_parse raw = Some parsed ->
  hd unreachable (api_script w) = NetRejected (Some r) msg ->
  apiClient (S n) cfg w =
    responseInterceptor (apiClient n)
      (mkAxiosError (Some (set_Authorization cfg (access parsed))) (Some r) true msg)
      (after_dispatch (set_Authorization cfg (access parsed)) w).
Proof.
  intros Hf Hstore Hraw Hparse Hreply.
  rewrite (apiClient_step _ _ _ _ _
             (requestInterceptor_present cfg w raw parsed Hf Hstore Hraw Hparse)).
  rewrite Hreply. reflexivity.
Qed.

(** X16.  End to end, with the platform storage working: an API request
    answered 401 while a pair is stored triggers exactly one refresh call
    with the stored refresh token and, the refresh succeeding, exactly one
    retry carrying the new access token; what the retry yields, a response
    or any failure, a second 401 included, is the final result, and the
    store ends with the new pair. *)
Theorem unauthorized_refresh_retry
    (cfg : RequestConfig) (w : World) (raw : string) (parsedTokens : AuthTokens)
    (r : Response) (msg : string) (second : NetOutcome) (rest : list NetOutcome)
    (newAccess : string) :
  _retry cfg = false ->
  faults w = [] ->
  backing_store w !! TOKEN_KEY = Some raw ->
  raw <> "" ->
  JSON_parse raw = Some parsedTokens ->
  api_script w = NetRejected (Some r) msg :: second :: rest ->
  status r = 401 ->
  hd refresh_unreachable (refresh_script w) = RefreshResolved newAccess ->
  let first := set_Authorization cfg (access parsedTokens) in
  let again := set_Authorization (set_Authorization (set_retry first) newAccess) newAccess in
  exists w',
    api_call (apiClient 2 cfg) w =
      Some (match second with
            | NetResolved r2 => Fulfilled (mkResponse (status r2) (body r2))
            | NetRejected r2 msg2 =>
                Rejected (handleApiError (mkAxiosError (Some again) r2 true msg2))
            end, w') /\
    dispatched (trace w') = dispatched (trace w) ++ [first; again] /\
    bearer again newAccess /\
    refresh_calls (trace w') = refresh_calls (trace w) ++ [refresh parsedTokens] /\
    backing_store w' !! TOKEN_KEY =
      Some (JSON_stringify (mkAuthTokens newAccess (refresh parsedTokens))).
Proof.
  intros Hretry Hf Hstore Hraw Hparse Hscript H401 Hrefresh first again.
  set (newTokens := mkAuthTokens newAccess (refresh parsedTokens)).
  set (W1 := after_dispatch first w).
  destruct (after_dispatch_facts first w) as (Hs1 & Hd1 & Hc1 & Hf1 & Hr1 & Ha1).
  fold W1 in Hs1, Hd1, Hc1, Hf1, Hr1, Ha1.
  rewrite Hf in Hf1.
  set (W2 := after_refresh_call (refresh parsedTokens) W1).
  set (W3 := log_event (EvStored TOKEN_KEY (JSON_stringify newTokens))
               (write_backing (<[TOKEN_KEY := JSON_stringify newTokens]> (backing_store W2))
                  W2)).
  assert (Hf2 : faults W2 = []) by exact Hf1.
  assert (H401' : status_is (mkAxiosError (Some first) (Some r) true msg) 401 = true).
  { unfold status_is. cbn [response]. apply Z.eqb_eq, H401. }
  assert (Hload1 : loaded W1 = Some raw).
  { rewrite (loaded_quiet _ Hf1), Hs1. exact Hstore. }
  assert (Hrefresh1 : hd refresh_unreachable (refresh_script W1) = RefreshResolved newAccess).
  { rewrite Hr1. exact Hrefresh. }
  assert (Hsave : after_save (JSON_stringify newTokens)
                    (after_refresh_call (refresh parsedTokens) (after_load W1)) = W3).
  { rewrite (after_load_quiet _ Hf1). fold W2.
    unfold after_save. rewrite Hf2. cbn [hd].
    rewrite (after_fault_quiet _ Hf2). reflexivity. }
  assert (Hleg1 : apiClient 2 cfg w =
                  apiClient 1 (set_Authorization (set_retry first) newAccess) W3).
  { rewrite (apiClient_unauthorized 1 cfg w raw parsedTokens r msg Hf Hstore Hraw Hparse)
      by (rewrite Hscript; reflexivity).
    fold first W1. rewrite <- Hsave.
    apply (responseInterceptor_refresh_resolved (apiClient 1)
             (mkAxiosError (Some first) (Some r) true msg) first W1 raw
             parsedTokens newAccess eq_refl H401' Hretry Hload1 Hraw Hparse Hrefresh1). }
  assert (Hf3 : faults W3 = []) by exact Hf1.
  assert (Hs3 : backing_store W3 !! TOKEN_KEY = Some (JSON_stringify newTokens)).
  { unfold W3. rewrite backing_store_log, backing_store_write. apply lookup_insert_eq. }
  assert (Ha3 : api_script W3 = second :: rest).
  { change (api_script W3) with (api_script W1). rewrite Ha1, Hscript. reflexivity. }
  assert (Hreq3 : requestInterceptor (set_Authorization (set_retry first) newAccess) W3 =
                  Some (Normal again, W3)).
  { apply (requestInterceptor_present _ W3 (JSON_stringify newTokens) newTokens);
      auto using JSON_stringify_nonempty, JSON_parse_stringify. }
  destruct (after_dispatch_facts again W3) as (Hs4 & Hd4 & Hc4 & _).
  exists (after_dispatch again W3).
  split.
  { unfold api_call. rewrite Hleg1, (apiClient_step _ _ _ _ _ Hreq3), Ha3. cbn [hd].
    destruct second as [r2 | r2 msg2]; [reflexivity|].
    rewrite (responseInterceptor_retried _ _ again); reflexivity. }
  split.
  { rewrite Hd4. unfold W3, W2, after_refresh_call. world_norm.
    rewrite !dispatched_snoc, !app_nil_r, Hd1, <- app_assoc. reflexivity. }
  split; [apply bearer_set_Authorization|].
  split.
  { rewrite Hc4. unfold W3, W2, after_refresh_call. world_norm.
    rewrite !refresh_calls_snoc, !app_nil_r, Hc1. reflexivity. }
  rewrite Hs4. exact Hs3.
Qed.

(** X17.  End to end, with the platform storage working: when the request
    is answered 401 and the refresh call fails, the API function rejects
    with the [ApiError] built from the failure of the refresh call, the
    request is not retried, and the stored pair is gone. *)
Theorem unauthorized_refresh_failed
    (cfg : RequestConfig) (w : World) (raw : string) (parsedTokens : AuthTokens)
    (r : Response) (msg : string) (refreshError : AxiosError) :
  _retry cfg = false ->
  faults w = [] ->
  backing_store w !! TOKEN_KEY = Some raw ->
  raw <> "" ->
  JSON_parse raw = Some parsedTokens ->
  hd unreachable (api_script w) = NetRejected (Some r) msg ->
  status r = 401 ->
  hd refresh_unreachable (refresh_script w) = RefreshRejected refreshError ->
  exists w',
    api_call (apiClient 2 cfg) w = Some (Rejected (handleApiError refreshError), w') /\
    dispatched (trace w') =
      dispatched (trace w) ++ [set_Authorization cfg (access parsedTokens)] /\
    refresh_calls (trace w') = refresh_calls (trace w) ++ [refresh parsedTokens] /\
    backing_store w' !! TOKEN_KEY = None.
Proof.
  intros Hretry Hf Hstore Hraw Hparse Hreply H401 Hrefresh.
  set (first := set_Authorization cfg (access parsedTokens)).
  set (W1 := after_dispatch first w).
  destruct (after_dispatch_facts first w) as (Hs1 & Hd1 & Hc1 & Hf1 & Hr1 & Ha1).
  fold W1 in Hs1, Hd1, Hc1, Hf1, Hr1, Ha1.
  rewrite Hf in Hf1.
  assert (H401' : status_is (mkAxiosError (Some first) (Some r) true msg) 401 = true).
  { unfold status_is. cbn [response]. apply Z.eqb_eq, H401. }
  assert (Hload1 : loaded W1 = Some raw).
  { rewrite (loaded_quiet _ Hf1), Hs1. exact Hstore. }
  assert (Hrefresh1 : hd refresh_unreachable (refresh_script W1) =
                      RefreshRejected refreshError).
  { rewrite Hr1. exact Hrefresh. }
  eexists. split.
  { unfold api_call.
    rewrite (apiClient_unauthorized 1 cfg w raw parsedTokens r msg Hf Hstore Hraw Hparse
               Hreply).
    fold first W1.
    rewrite (responseInterceptor_refresh_rejected (apiClient 1)
               (mkAxiosError (Some first) (Some r) true msg) first W1 raw
               parsedTokens refreshError eq_refl H401' Hretry Hload1 Hraw Hparse
               Hrefresh1).
    reflexivity. }
  rewrite (after_load_quiet _ Hf1).
  unfold after_delete, after_refresh_call. world_norm. rewrite Hf1. cbn [hd tail].
  world_norm.
  rewrite !dispatched_snoc, !refresh_calls_snoc, !app_nil_r, Hd1, Hc1.
  split; [reflexivity|]. split; [reflexivity|].
  rewrite backing_store_log, backing_store_write. apply lookup_delete_eq.
Qed.


Lemma continues_refl w : continues w w [] [].
Proof. unfold continues. rewrite !app_nil_r. auto. Qed.

Lemma continues_trans w1 w2 w3 ds1 rs1 ds2 rs2 :
  continues w1 w2 ds1 rs1 -> continues w2 w3 ds2 rs2 ->
  continues w1 w3 (ds1 ++ ds2) (rs1 ++ rs2).
Proof.
  unfold continues. intros [Hd1 Hr1] [Hd2 Hr2].
  rewrite Hd2, Hr2, Hd1, Hr1, !app_assoc. auto.
Qed.

Lemma continues_quiet w w' : quiet_step w w' -> continues w w' [] [].
Proof.
  intros (_ & _ & _ & Hd & Hc & _). unfold continues. rewrite Hd, Hc, !app_nil_r. auto.
Qed.

Lemma continues_save key value w w' :
  secureStorage_setItem key value w = Some (Normal tt, w') -> continues w w' [] [].
Proof.
  rewrite secureStorage_setItem_run. intros [= <-]. unfold continues.
  destruct (hd false (faults w)); world_norm;
    rewrite dispatched_snoc, refresh_calls_snoc, !app_nil_r; auto.
Qed.

Lemma continues_delete key w w' :
  secureStorage_deleteItem key w = Some (Normal tt, w') -> continues w w' [] [].
Proof.
  rewrite secureStorage_deleteItem_run. intros [= <-]. unfold continues.
  destruct (hd false (faults w)); world_norm;
    rewrite dispatched_snoc, refresh_calls_snoc, !app_nil_r; auto.
Qed.

Lemma continues_refresh_call token w :
  continues w (after_refresh_call token w) [] [token].
Proof.
  unfold continues, after_refresh_call. world_norm.
  rewrite dispatched_snoc, refresh_calls_snoc, app_nil_r. auto.
Qed.

Lemma continues_dispatch sent w : continues w (after_dispatch sent w) [sent] [].
Proof.
  destruct (after_dispatch_facts sent w) as (_ & Hd & Hc & _).
  unfold continues. rewrite Hd, Hc, app_nil_r. auto.
Qed.

(** What the rejection handler adds when the client it retries through is
    the pipeline itself: nothing, one refresh call, or one refresh call
    followed by one request. *)
Lemma responseInterceptor_bounded n error w :
  exists outcome w' ds rs,
    responseInterceptor (apiClient (S n)) error w = Some (outcome, w') /\
    continues w w' ds rs /\
    (ds = [] /\ (List.length rs <= 1)%nat \/
     List.length ds = 1%nat /\ List.length rs = 1%nat).
Proof.
  unfold responseInterceptor.
  destruct (config error) as [cfg|];
    [|do 4 eexists; split; [reflexivity|]; split; [apply continues_refl|]; left; auto].
  destruct (status_is error 401 && negb (_retry cfg));
    [|do 4 eexists; split; [reflexivity|]; split; [apply continues_refl|]; left; auto].
  unfold mbind, Async_bind, try_catch, parse_tokens.
  rewrite getItem_loaded.
  pose proof (continues_quiet _ _ (quiet_step_after_load w)) as Hload.
  destruct (truthy_item (loaded w));
    [|do 4 eexists; split; [reflexivity|]; split; [exact Hload|]; left; auto].
  destruct (JSON_parse _) as [parsed|].
  - cbv [mret Async_ret]. rewrite axios_post_refresh_run.
    pose proof (continues_refresh_call (refresh parsed) (after_load w)) as Hcall.
    unfold after_refresh_call in Hcall.
    pose proof (continues_trans _ _ _ _ _ _ _ Hload Hcall) as Hboth.
    cbn [app] in Hboth.
    destruct (hd refresh_unreachable _) as [newAccess | refreshError].
    + destruct (secureStorage_setItem TOKEN_KEY
                  (JSON_stringify (mkAuthTokens newAccess (refresh parsed)))
                  (set_refresh_script (tail (refresh_script (after_load w)))
                     (log_event (EvRefreshCall (refresh parsed)) (after_load w))))
        as [[[[]|e] w3]|] eqn:Hsave;
        try (rewrite secureStorage_setItem_run in Hsave; discriminate).
      pose proof (continues_trans _ _ _ _ _ _ _ Hboth
                    (continues_save _ _ _ _ Hsave)) as Hsaved.
      cbn [app] in Hsaved.
      destruct (apiClient_retried n
                  (set_Authorization (set_retry cfg)
                     (access (mkAuthTokens newAccess (refresh parsed)))) w3 eq_refl)
        as (sent & w4 & w' & _ & Hrun & _ & Hd & Hc & _).
      exists (match hd unreachable (api_script w3) with
              | NetResolved r => Normal r
              | NetRejected r msg =>
                  Throw (ErrAxios (mkAxiosError (Some sent) r true msg))
              end), w', [sent], [refresh parsed].
      split; [exact Hrun|]. split; [|right; auto].
      destruct Hsaved as [Hd3 Hc3]. unfold continues.
      rewrite Hd, Hc, Hd3, Hc3, app_nil_r. auto.
    + destruct (secureStorage_deleteItem TOKEN_KEY
                  (set_refresh_script (tail (refresh_script (after_load w)))
                     (log_event (EvRefreshCall (refresh parsed)) (after_load w))))
        as [[[[]|e] w3]|] eqn:Hdel;
        try (rewrite secureStorage_deleteItem_run in Hdel; discriminate).
      pose proof (continues_trans _ _ _ _ _ _ _ Hboth
                    (continues_delete _ _ _ Hdel)) as Hdeleted.
      cbn [app] in Hdeleted.
      do 4 eexists. split; [reflexivity|]. split; [exact Hdeleted|]. left. auto.
  - unfold reject at 1.
    destruct (secureStorage_deleteItem TOKEN_KEY (after_load w))
      as [[[[]|e] w3]|] eqn:Hdel;
      try (rewrite secureStorage_deleteItem_run in Hdel; discriminate).
    pose proof (continues_trans _ _ _ _ _ _ _ Hload (continues_delete _ _ _ Hdel))
      as Hdeleted.
    do 4 eexists. split; [reflexivity|]. split; [exact Hdeleted|]. left. auto.
Qed.

(** X26.  No loop: in every world, whatever the platform storage, the
    backend and the refresh endpoint do, a request through the client
    completes after one dispatch, or after two dispatches with exactly one
    refresh call in between; the refresh endpoint is never called more
    than once. *)
Theorem at_most_one_refresh_and_retry (cfg : RequestConfig) (w : World) :
  exists outcome w' ds rs,
    apiClient 2 cfg w = Some (outcome, w') /\
    dispatched (trace w') = dispatched (trace w) ++ ds /\
    refresh_calls (trace w') = refresh_calls (trace w) ++ rs /\
    (List.length ds = 1%nat /\ (List.length rs <= 1)%nat \/
     List.length ds = 2%nat /\ List.length rs = 1%nat).
Proof.
  destruct (requestInterceptor_total cfg w) as (sent & w1 & Hreq & Hq & _).
  pose proof (continues_trans _ _ _ _ _ _ _ (continues_quiet _ _ Hq)
                (continues_dispatch sent w1)) as Hsent.
  cbn [app] in Hsent.
  rewrite (apiClient_step _ _ _ _ _ Hreq).
  destruct (hd unreachable (api_script w)) as [r | r msg].
  - exists (Normal r), (after_dispatch sent w1), [sent], [].
    split; [reflexivity|]. destruct Hsent as [Hd Hc].
    split; [exact Hd|]. split; [exact Hc|]. left. auto.
  - destruct (responseInterceptor_bounded 0 (mkAxiosError (Some sent) r true msg)
                (after_dispatch sent w1))
      as (outcome & w' & ds & rs & Hrun & Hcont & Hbound).
    exists outcome, w', ([sent] ++ ds), ([] ++ rs).
    split; [exact Hrun|].
    destruct (continues_trans _ _ _ _ _ _ _ Hsent Hcont) as [Hd Hc].
    split; [exact Hd|]. split; [exact Hc|].
    destruct Hbound as [[-> Hrs] | [Hds Hrs]]; [left | right];
      cbn [app List.length]; rewrite ?Hds; auto.
Qed.

End ApiFunctionProperties.

(** * Properties of the auth thunks *)

Section AuthThunkProperties.
Import Api ApiCalls AuthSlice.
Context `{JSON} `{JSONData}.

Ltac world_norm :=
  cbn [trace faults api_script refresh_script Platform_OS localStorage
       SecureStore log_event after_fault set_faults set_api_script
       set_refresh_script write_backing set_store_of].

Lemma authApi_login_run credentials w r text :
  faults w = [] ->
  backing_store w !! TOKEN_KEY = None ->
  hd unreachable (api_script w) = NetResolved r ->
  JSON_stringify_data (body r) = Some text ->
  authApi_login credentials w =
    Some (Fulfilled (mkResponse (status r) (body r)), after_login credentials text w).
Proof.
  intros Hf Hstore Hreply Htext.
  unfold authApi_login, api_call, apiClient_post, mbind, Async_bind.
  rewrite (apiClient_step _ _ _ _ _
             (requestInterceptor_absent (post_request "/token/" credentials) w Hstore)).
  rewrite Hreply, Htext. cbv [mret Async_ret secureStorage_setItem_data].
  rewrite secureStorage_setItem_run, (after_load_quiet _ Hf).
  destruct (after_dispatch_facts (post_request "/token/" credentials) w)
    as (Hs & _ & _ & Hf' & _).
  rewrite Hf', Hf. cbn [hd]. rewrite Hs.
  rewrite after_fault_quiet by (rewrite Hf'; exact Hf). reflexivity.
Qed.

Lemma after_login_facts credentials text w :
  faults w = [] ->
  faults (after_login credentials text w) = [] /\
  backing_store (after_login credentials text w) !! TOKEN_KEY = Some text /\
  api_script (after_login credentials text w) = tail (api_script w) /\
  dispatched (trace (after_login credentials text w)) =
    dispatched (trace w) ++ [post_request "/token/" credentials] /\
  refresh_calls (trace (after_login credentials text w)) = refresh_calls (trace w).
Proof.
  intros Hf. unfold after_login, after_dispatch.
  rewrite backing_store_log, backing_store_write. world_norm.
  rewrite !dispatched_snoc, !refresh_calls_snoc, !app_nil_r, lookup_insert_eq.
  auto.
Qed.

(** X18.  A login from a signed-out device, with the platform storage
    working: when the backend answers, one request is sent, without
    bearer credential and with the credentials as its data; the text
    [JSON.stringify] gives for the data of the response is stored under
    the token key as it is, whatever the data holds, and the call resolves
    with the data and status of the response. *)
Theorem login_stores_the_pair
    (credentials : JsValue) (w : World) (r : Response) (text : string) :
  faults w = [] ->
  backing_store w !! TOKEN_KEY = None ->
  hd unreachable (api_script w) = NetResolved r ->
  JSON_stringify_data (body r) = Some text ->
  exists w',
    authApi_login credentials w = Some (Fulfilled (mkResponse (status r) (body r)), w') /\
    backing_store w' !! TOKEN_KEY = Some text /\
    dispatched (trace w') = dispatched (trace w) ++ [post_request "/token/" credentials] /\
    no_Authorization (post_request "/token/" credentials) /\
    refresh_calls (trace w') = refresh_calls (trace w).
Proof.
  intros Hf Hstore Hreply Htext.
  exists (after_login credentials text w).
  destruct (after_login_facts credentials text w Hf) as (_ & Hs & _ & Hd & Hc).
  split; [apply authApi_login_run; assumption|].
  split; [exact Hs|]. split; [exact Hd|]. split; [|exact Hc].
  intros hs [= <-]. reflexivity.
Qed.

(** X19.  [loginUser] on a signed-out device, with the platform storage
    working and the backend answering both requests: the thunk is
    fulfilled with the data of the two responses; the text of the data of
    the login response is stored, and the second request, for the user,
    carries as its bearer credential the access token of the pair that
    this text parses to; no refresh call is made and the text stays
    stored. *)
Theorem loginUser_fulfilled_with_new_token
    (credentials : JsValue) (w : World) (r1 r2 : Response) (rest : list NetOutcome)
    (text : string) (tokens : AuthTokens) :
  faults w = [] ->
  backing_store w !! TOKEN_KEY = None ->
  api_script w = NetResolved r1 :: NetResolved r2 :: rest ->
  JSON_stringify_data (body r1) = Some text ->
  text <> "" ->
  JSON_parse text = Some tokens ->
  exists w',
    loginUser credentials w = Some (fulfilled (body r1, body r2), w') /\
    dispatched (trace w') =
      dispatched (trace w) ++
      [post_request "/token/" credentials;
       set_Authorization (get_request "/me/") (access tokens)] /\
    refresh_calls (trace w') = refresh_calls (trace w) /\
    backing_store w' !! TOKEN_KEY = Some text.
Proof.
  intros Hf Hstore Hscript Htext Hnonempty Hparse.
  destruct (after_login_facts credentials text w Hf) as (Hf1 & Hs1 & Ha1 & Hd1 & Hc1).
  set (W1 := after_login credentials text w) in *.
  set (sent := set_Authorization (get_request "/me/") (access tokens)).
  exists (after_dispatch sent W1).
  destruct (after_dispatch_facts sent W1) as (Hs2 & Hd2 & Hc2 & _).
  split.
  - unfold loginUser.
    rewrite (authApi_login_run credentials w r1 text Hf Hstore)
      by (rewrite ?Hscript; auto).
    fold W1. unfold authApi_getCurrentUser, api_call, apiClient_get.
    rewrite (apiClient_step _ _ _ _ _
               (requestInterceptor_present (get_request "/me/") W1
                  text tokens Hf1 Hs1 Hnonempty Hparse)).
    rewrite Ha1, Hscript. reflexivity.
  - rewrite Hd2, Hc2, Hs2, Hd1, Hc1, <- app_assoc. auto.
Qed.

(** X20.  A login rejected with 401 while nothing is stored: [loginUser]
    rejects with its sentence for wrong credentials, after a single
    request, with no refresh call, and nothing gets stored. *)
Theorem loginUser_wrong_credentials
    (credentials : JsValue) (w : World) (r : Response) (msg : string) :
  backing_store w !! TOKEN_KEY = None ->
  hd unreachable (api_script w) = NetRejected (Some r) msg ->
  status r = 401 ->
  exists w',
    loginUser credentials w =
      Some (rejected (JsString "用户名或密码错误，请检查后重试"), w') /\
    dispatched (trace w') = dispatched (trace w) ++ [post_request "/token/" credentials] /\
    refresh_calls (trace w') = refresh_calls (trace w) /\
    backing_store w' = backing_store w.
Proof.
  intros Hstore Hreply H401.
  set (cfg := post_request "/token/" credentials).
  set (W1 := after_dispatch cfg (after_load w)).
  destruct (after_dispatch_facts cfg (after_load w)) as (Hs1 & Hd1 & Hc1 & _).
  fold W1 in Hs1, Hd1, Hc1.
  destruct (quiet_step_after_load w) as (Hs0 & Ha0 & _ & Hd0 & Hc0 & _).
  destruct (quiet_step_after_load W1) as (Hs2 & _ & _ & Hd2 & Hc2 & _).
  assert (H401' : status_is (mkAxiosError (Some cfg) (Some r) true msg) 401 = true).
  { unfold status_is. cbn [response]. apply Z.eqb_eq, H401. }
  assert (Habsent : truthy_item (loaded W1) = false).
  { rewrite loaded_absent; [reflexivity|]. rewrite Hs1, Hs0. exact Hstore. }
  exists (after_load W1). split.
  - unfold loginUser, authApi_login, api_call, apiClient_post, mbind, Async_bind.
    rewrite (apiClient_step _ _ _ _ _ (requestInterceptor_absent cfg w Hstore)).
    rewrite Hreply. fold cfg W1.
    rewrite (responseInterceptor_absent (apiClient 1)
               (mkAxiosError (Some cfg) (Some r) true msg) cfg W1 eq_refl H401'
               eq_refl Habsent).
    unfold handleApiError, as_AxiosError, set_config. cbn [response].
    unfold loginUser_errorMessage.
    cbn [js_get assoc String.eqb Ascii.eqb Bool.eqb from_option mbind
         Completion_bind status].
    rewrite H401. reflexivity.
  - rewrite Hd2, Hc2, Hs2, Hd1, Hc1, Hs1, Hd0, Hc0, Hs0. auto.
Qed.


Lemma api_call_settles attempt w :
  is_Some (attempt w) ->
  exists outcome w', api_call attempt w = Some (outcome, w').
Proof.
  intros [[[response | e] w'] Hrun]; unfold api_call; rewrite Hrun; eauto.
Qed.

Lemma logout_and_null_run w :
  exists w', logout_and_null w = Some (fulfilled JsNull, w').
Proof. unfold logout_and_null. rewrite authApi_logout_run. eauto. Qed.

(** X21.  [checkAuthStatus] with nothing stored is fulfilled with [null]
    without any request being sent, and leaves the store as it was. *)
Theorem checkAuthStatus_signed_out (w : World) :
  backing_store w !! TOKEN_KEY = None ->
  exists w',
    checkAuthStatus w = Some (fulfilled JsNull, w') /\
    dispatched (trace w') = dispatched (trace w) /\
    refresh_calls (trace w') = refresh_calls (trace w) /\
    backing_store w' = backing_store w.
Proof.
  intros Hstore. exists (after_load w). split.
  - unfold checkAuthStatus.
    rewrite authApi_hasValidToken_run, (loaded_absent _ Hstore). reflexivity.
  - destruct (quiet_step_after_load w) as (Hs & _ & _ & Hd & Hc & _). auto.
Qed.

(** X22.  [checkAuthStatus] is never rejected: in every world, whatever
    the platform storage and the backend do, it is fulfilled, with the
    user or with [null]. *)
Theorem checkAuthStatus_always_fulfilled (w : World) :
  exists payload w', checkAuthStatus w = Some (fulfilled payload, w').
Proof.
  unfold checkAuthStatus. rewrite authApi_hasValidToken_run.
  destruct (truthy_item (loaded w)); [|eauto].
  destruct (api_call_settles (apiClient_get "/me/") (after_load w))
    as ([response | apiError] & w1 & Hrun).
  { apply apiClient_terminates. }
  - unfold authApi_getCurrentUser. rewrite Hrun. eauto.
  - unfold authApi_getCurrentUser. rewrite Hrun.
    destruct (logout_and_null_run w1) as (w2 & Hout). eauto.
Qed.

(** X23.  Starting while the backend cannot serve the user ends the
    session: with a pair stored, the platform storage working, and the
    request for the user failing with anything but 401, [checkAuthStatus]
    is fulfilled with [null] after that one request and the stored pair is
    deleted. *)
Theorem checkAuthStatus_failure_signs_out
    (w : World) (pair : AuthTokens) (r : option Response) (msg : string) :
  faults w = [] ->
  backing_store w !! TOKEN_KEY = Some (JSON_stringify pair) ->
  hd unreachable (api_script w) = NetRejected r msg ->
  (forall resp, r = Some resp -> status resp <> 401) ->
  exists w',
    checkAuthStatus w = Some (fulfilled JsNull, w') /\
    dispatched (trace w') =
      dispatched (trace w) ++ [set_Authorization (get_request "/me/") (access pair)] /\
    refresh_calls (trace w') = refresh_calls (trace w) /\
    backing_store w' !! TOKEN_KEY = None.
Proof.
  intros Hf Hstore Hreply Hstatus.
  set (sent := set_Authorization (get_request "/me/") (access pair)).
  set (W1 := after_dispatch sent w).
  destruct (after_dispatch_facts sent w) as (Hs1 & Hd1 & Hc1 & Hf1 & _).
  fold W1 in Hs1, Hd1, Hc1, Hf1. rewrite Hf in Hf1.
  eexists. split.
  - unfold checkAuthStatus.
    rewrite authApi_hasValidToken_run, (loaded_quiet _ Hf), (after_load_quiet _ Hf).
    rewrite Hstore, truthy_item_stringify.
    unfold authApi_getCurrentUser, api_call, apiClient_get.
    rewrite (apiClient_step _ _ _ _ _
               (requestInterceptor_present (get_request "/me/") w
                  (JSON_stringify pair) pair Hf Hstore
                  (JSON_stringify_nonempty pair) (JSON_parse_stringify pair))).
    rewrite Hreply. fold sent W1.
    rewrite responseInterceptor_other.
    + unfold logout_and_null. rewrite authApi_logout_run. reflexivity.
    + unfold status_is. cbn [response]. destruct r as [resp|]; [|reflexivity].
      apply Z.eqb_neq, Hstatus. reflexivity.
  - cbv zeta. world_norm. rewrite Hf1. cbn [hd]. world_norm.
    rewrite !dispatched_snoc, !refresh_calls_snoc, !app_nil_r, Hd1, Hc1.
    split; [reflexivity|]. split; [reflexivity|].
    rewrite !backing_store_log, backing_store_write. apply lookup_delete_eq.
Qed.

End AuthThunkProperties.

(** * Properties of the auth reducer *)

Section ReducerProperties.
Import AuthSlice.
Variable User : Type.

Lemma authenticated_has_user_step state action :
  (isAuthenticated User state = true -> user User state <> None) ->
  isAuthenticated User (authReducer User state action) = true ->
  user User (authReducer User state action) <> None.
Proof.
  intros Hinv. destruct action as [| | | | | | | | |[u|]| | |];
    cbn; try discriminate; auto.
Qed.

(** X24.  Invariant of the auth state: after any sequence of actions from
    the initial state, an authenticated state has a user. *)
Theorem authenticated_has_user (actions : list (Action User)) :
  isAuthenticated User (run_actions User (initialState User) actions) = true ->
  user User (run_actions User (initialState User) actions) <> None.
Proof.
  unfold run_actions.
  assert (Hgen : forall state,
             (isAuthenticated User state = true -> user User state <> None) ->
             isAuthenticated User (fold_left (authReducer User) actions state) = true ->
             user User (fold_left (authReducer User) actions state) <> None).
  { induction actions as [|action actions IH]; intros state Hinv; [exact Hinv|].
    cbn [fold_left]. apply IH. apply authenticated_has_user_step, Hinv. }
  apply Hgen. cbn. discriminate.
Qed.

(** X25.  The tokens of the auth state are set by a fulfilled login and by
    nothing else: after any sequence of actions without one, a restored
    session ([checkAuthStatus] or [getCurrentUser] fulfilled) included,
    they are still [null]. *)
Theorem tokens_only_from_login (actions : list (Action User)) :
  forallb (fun action => negb (is_login_fulfilled User action)) actions = true ->
  tokens User (run_actions User (initialState User) actions) = None.
Proof.
  unfold run_actions.
  assert (Hgen : forall state,
             tokens User state = None ->
             forallb (fun action => negb (is_login_fulfilled User action)) actions = true ->
             tokens User (fold_left (authReducer User) actions state) = None).
  { induction actions as [|action actions IH]; intros state Hnone; [auto|].
    cbn [forallb fold_left]. intros [Hact Hrest]%andb_true_iff.
    apply IH; [|exact Hrest].
    destruct action as [| | | | | | | | |[u|]| | |]; cbn; auto; discriminate. }
  apply Hgen. reflexivity.
Qed.

End ReducerProperties.

(** * The further properties on concrete sessions *)

Section ScenariosFurther.
Import Api ApiCalls AuthSlice.

Lemma other_failures_bypass_refresh_witness :
  exists sent w',
    @authApi_getCurrentUser TokenJSON
      (device [] [NetRejected (Some (mkResponse 503 (JsString "Service Unavailable")))
                    "Request failed with status code 503"] []) =
      Some (Rejected
              (handleApiError
                 (mkAxiosError (Some sent)
                    (Some (mkResponse 503 (JsString "Service Unavailable"))) true
                    "Request failed with status code 503")), w') /\
    refresh_calls (trace w') = [].
Proof.
  destruct (@other_failures_bypass_refresh TokenJSON (get_request "/me/")
              (device [] [NetRejected (Some (mkResponse 503 (JsString "Service Unavailable")))
                            "Request failed with status code 503"] [])
              (Some (mkResponse 503 (JsString "Service Unavailable")))
              "Request failed with status code 503" eq_refl
              ltac:(intros resp [= <-]; discriminate))
    as (sent & w' & Hrun & _ & _ & Hc).
  exists sent, w'. split; [exact Hrun | exact Hc].
Defined.

Lemma save_then_load_witness :
  exists w1 w2 raw,
    secureStorage_setItem TOKEN_KEY
      (tokens_stringify (mkAuthTokens "new-access" "refresh-1")) (device [] [] []) =
      Some (Normal tt, w1) /\
    secureStorage_getItem TOKEN_KEY w1 = Some (Normal (Some raw), w2) /\
    tokens_parse raw = Some (mkAuthTokens "new-access" "refresh-1").
Proof.
  destruct (@save_then_load TokenJSON (mkAuthTokens "new-access" "refresh-1")
              (device [] [] []) eq_refl eq_refl)
    as (w1 & w2 & raw & Hsave & Hload & Hparse & _).
  exists w1, w2, raw. auto.
Defined.

Lemma read_with_stored_pair_witness :
  exists w',
    @authApi_getCurrentUser TokenJSON (device [] [NetResolved profile] []) =
      Some (Fulfilled profile, w') /\
    dispatched (trace w') = [set_Authorization (get_request "/me/") "old-access"].
Proof.
  destruct (@read_with_stored_pair TokenJSON "/me/"
              (device [] [NetResolved profile] []) old_pair profile
              eq_refl eq_refl eq_refl)
    as (w' & Hrun & Hd & _).
  exists w'. split; [exact Hrun | exact Hd].
Defined.

Lemma unauthorized_refresh_retry_witness :
  exists w',
    @authApi_getCurrentUser TokenJSON
      (device [] [NetRejected (Some unauthorized) "Request failed with status code 401";
                  NetResolved profile]
         [RefreshResolved "new-access"]) =
      Some (Fulfilled profile, w') /\
    refresh_calls (trace w') = ["refresh-1"] /\
    backing_store w' !! TOKEN_KEY =
      Some (tokens_stringify (mkAuthTokens "new-access" "refresh-1")).
Proof.
  destruct (@unauthorized_refresh_retry TokenJSON (get_request "/me/")
              (device [] [NetRejected (Some unauthorized)
                            "Request failed with status code 401";
                          NetResolved profile]
                 [RefreshResolved "new-access"])
              (tokens_stringify old_pair) old_pair unauthorized
              "Request failed with status code 401" (NetResolved profile) []
              "new-access" eq_refl eq_refl eq_refl
              (tokens_stringify_nonempty old_pair) eq_refl eq_refl eq_refl eq_refl)
    as (w' & Hrun & _ & _ & Hc & Hs).
  exists w'. split; [exact Hrun|]. split; [exact Hc | exact Hs].
Defined.

Lemma unauthorized_refresh_failed_witness :
  exists w',
    @authApi_getCurrentUser TokenJSON
      (device [] [NetRejected (Some unauthorized) "Request failed with status code 401"]
         [RefreshRejected refresh_down]) =
      Some (Rejected (handleApiError refresh_down), w') /\
    backing_store w' !! TOKEN_KEY = None.
Proof.
  destruct (@unauthorized_refresh_failed TokenJSON (get_request "/me/")
              (device [] [NetRejected (Some unauthorized)
                            "Request failed with status code 401"]
                 [RefreshRejected refresh_down])
              (tokens_stringify old_pair) old_pair unauthorized
              "Request failed with status code 401" refresh_down
              eq_refl eq_refl eq_refl
              (tokens_stringify_nonempty old_pair) eq_refl eq_refl eq_refl eq_refl)
    as (w' & Hrun & _ & _ & Hs).
  exists w'. split; [exact Hrun | exact Hs].
Defined.

Lemma login_stores_the_pair_witness :
  exists w',
    @authApi_login MembersJSON DataJSON ann (fresh_device [NetResolved granted]) =
      Some (Fulfilled granted, w') /\
    backing_store w' !! TOKEN_KEY =
      Some ("{" +:+ json_quote "refresh" +:+ ":" +:+ json_quote "refresh-2" +:+ "," +:+
            json_quote "access" +:+ ":" +:+ json_quote "access-2" +:+ "}").
Proof.
  destruct (@login_stores_the_pair MembersJSON DataJSON ann
              (fresh_device [NetResolved granted]) granted _
              eq_refl eq_refl eq_refl eq_refl)
    as (w' & Hrun & Hs & _).
  exists w'. split; [exact Hrun | exact Hs].
Defined.

Lemma loginUser_fulfilled_with_new_token_witness :
  exists w',
    @loginUser MembersJSON DataJSON ann
      (fresh_device [NetResolved granted; NetResolved profile]) =
      Some (fulfilled (body granted, body profile), w') /\
    dispatched (trace w') =
      [post_request "/token/" ann; set_Authorization (get_request "/me/") "access-2"].
Proof.
  destruct (@loginUser_fulfilled_with_new_token MembersJSON DataJSON ann
              (fresh_device [NetResolved granted; NetResolved profile])
              granted profile [] _ (mkAuthTokens "access-2" "refresh-2")
              eq_refl eq_refl eq_refl eq_refl
              ltac:(discriminate) eq_refl)
    as (w' & Hrun & Hd & _).
  exists w'. split; [exact Hrun | exact Hd].
Defined.

Lemma loginUser_wrong_credentials_witness :
  exists w',
    @loginUser TokenJSON DataJSON ann
      (fresh_device
         [NetRejected (Some unauthorized) "Request failed with status code 401"]) =
      Some (rejected (JsString "用户名或密码错误，请检查后重试"), w') /\
    refresh_calls (trace w') = [].
Proof.
  destruct (@loginUser_wrong_credentials TokenJSON DataJSON ann
              (fresh_device
                 [NetRejected (Some unauthorized) "Request failed with status code 401"])
              unauthorized "Request failed with status code 401"
              eq_refl eq_refl eq_refl)
    as (w' & Hrun & _ & Hc & _).
  exists w'. split; [exact Hrun | exact Hc].
Defined.

Lemma checkAuthStatus_signed_out_witness :
  exists w',
    @checkAuthStatus TokenJSON signed_out = Some (fulfilled JsNull, w') /\
    dispatched (trace w') = [].
Proof.
  destruct (@checkAuthStatus_signed_out TokenJSON signed_out eq_refl)
    as (w' & Hrun & Hd & _).
  exists w'. split; [exact Hrun | exact Hd].
Defined.

Lemma checkAuthStatus_failure_signs_out_witness :
  exists w',
    @checkAuthStatus TokenJSON (device [] [] []) = Some (fulfilled JsNull, w') /\
    backing_store w' !! TOKEN_KEY = None.
Proof.
  destruct (@checkAuthStatus_failure_signs_out TokenJSON (device [] [] []) old_pair
              None "Network Error" eq_refl eq_refl eq_refl
              ltac:(intros resp; discriminate))
    as (w' & Hrun & _ & _ & Hs).
  exists w'. split; [exact Hrun | exact Hs].
Defined.

Lemma authenticated_has_user_witness :
  user string
    (run_actions string (initialState string)
       [checkAuthStatus_pending string; checkAuthStatus_fulfilled string (Some "ann")])
  <> None.
Proof.
  exact (authenticated_has_user string
           [checkAuthStatus_pending string; checkAuthStatus_fulfilled string (Some "ann")]
           eq_refl).
Defined.

Lemma tokens_only_from_login_witness :
  tokens string
    (run_actions string (initialState string)
       [checkAuthStatus_pending string; checkAuthStatus_fulfilled string (Some "ann")])
  = None.
Proof.
  exact (tokens_only_from_login string
           [checkAuthStatus_pending string; checkAuthStatus_fulfilled string (Some "ann")]
           eq_refl).
Defined.

End ScenariosFurther.
